(** * The HTTP admission pipeline of the aquachain RPC server (package rpc, http.go)

    A shallow embedding of the handler chain built by [NewHTTPServer]:
    the IP allow-list gate, the virtual-host gate, the CORS layer and the
    base JSON-RPC handler, together with the client identity resolver
    [getIP] and the request validation [validateRequest].

    Handlers are state transformers on a [Conn]: the response writer of the
    request being served, plus the list of request bodies handed to the RPC
    dispatcher so far.  The log calls of the source write to the process log
    only and are left out. *)

From Stdlib Require Import ZArith Ascii DecimalString.
From stdpp Require Import base gmap strings list.

Local Open Scope string_scope.
Local Open Scope list_scope.
Local Open Scope Z_scope.

(** ** Data model *)

(** [http.Header]: canonical field name to the values of that field. *)
Abbreviation Header := (gmap string (list string)).

(** [net.IP] is a byte slice; the nil slice is the empty list. *)
Definition IP := list Z.

(** [net.IPNet]. *)
Record IPNet := { net_IP : IP; net_Mask : list Z }.

(** The fields of [http.Request] the pipeline reads. *)
Record Request := {
  Method : string;
  Host : string;
  RemoteAddr : string;
  ContentLength : Z;
  URL_RawQuery : string;
  ReqHeader : Header;
  Body : string
}.

(** [http.ResponseWriter]: the header map, the status line once written,
    and the body bytes written so far. *)
Record ResponseWriter := {
  rw_Header : Header;
  rw_status : option Z;
  rw_body : string
}.

(** What a handler can change: the response, and the bodies given to the
    RPC dispatcher. *)
Record Conn := {
  conn_w : ResponseWriter;
  served : list string
}.

Definition HandlerFunc := Request -> Conn -> Conn.

(** Options given to [cors.New]. *)
Record cors_Options := {
  AllowedOrigins : list string;
  AllowedMethods : list string;
  MaxAge : Z;
  AllowedHeaders : list string
}.

(** [rpc.Server], as far as this file goes: the proxy flag, and the
    dispatcher [ServeSingleRequest] that reads one request from the (capped)
    body and writes one response. *)
Record Server := {
  reverseproxy : bool;
  ServeSingleRequest : string -> ResponseWriter -> ResponseWriter
}.

(** ** The library boundary

    Text-level functions of the Go standard library, the handler of the
    rs/cors package, and the two address classes of package p2p/netutil,
    whose source is not at hand.  The pipeline is defined over
    any implementation of them; [GoASCII] below gives one for 7-bit input. *)
Class GoLib := {
  strings_ToLower : string -> string;
  strings_TrimSpace : string -> string;
  strings_Split : string -> string -> list string;
  (** [None] when the error result is not nil *)
  net_SplitHostPort : string -> option (string * string);
  net_ParseIP : string -> IP;
  net_ParseCIDR : string -> option IPNet;
  (** media type and error; the parameter map is dropped by the caller *)
  mime_ParseMediaType : string -> string * option string;
  textproto_CanonicalMIMEHeaderKey : string -> string;
  netutil_IsLAN : IP -> bool;
  netutil_IsSpecialNetwork : IP -> bool;
  cors_Handler : cors_Options -> HandlerFunc -> HandlerFunc
}.

(** ** Constants *)

Definition contentType : string := "application/json".
Definition maxHTTPRequestContentLength : Z := 1024 * 128.

Definition MethodGet : string := "GET".
Definition MethodPost : string := "POST".
Definition MethodPut : string := "PUT".
Definition MethodDelete : string := "DELETE".
Definition MethodOptions : string := "OPTIONS".

Definition StatusOK : Z := 200.
Definition StatusForbidden : Z := 403.
Definition StatusMethodNotAllowed : Z := 405.
Definition StatusRequestEntityTooLarge : Z := 413.
Definition StatusUnsupportedMediaType : Z := 415.

(** ** net/http primitives *)

Section Http.
Context {go : GoLib}.

Definition Header_Get (h : Header) (key : string) : string :=
  match h !! textproto_CanonicalMIMEHeaderKey key with
  | Some (v :: _) => v
  | _ => ""
  end.

Definition Header_Set (h : Header) (key value : string) : Header :=
  <[textproto_CanonicalMIMEHeaderKey key := [value]]> h.

Definition Header_Del (h : Header) (key : string) : Header :=
  delete (textproto_CanonicalMIMEHeaderKey key) h.

(** The first status written wins. *)
Definition WriteHeader (code : Z) (w : ResponseWriter) : ResponseWriter :=
  match rw_status w with
  | Some _ => w
  | None => {| rw_Header := rw_Header w; rw_status := Some code; rw_body := rw_body w |}
  end.

(** A write before any status sends 200 first. *)
Definition Write (data : string) (w : ResponseWriter) : ResponseWriter :=
  let w1 := WriteHeader StatusOK w in
  {| rw_Header := rw_Header w1; rw_status := rw_status w1;
     rw_body := rw_body w1 +:+ data |}.

Definition setHeader (key value : string) (w : ResponseWriter) : ResponseWriter :=
  {| rw_Header := Header_Set (rw_Header w) key value;
     rw_status := rw_status w; rw_body := rw_body w |}.

Definition delHeader (key : string) (w : ResponseWriter) : ResponseWriter :=
  {| rw_Header := Header_Del (rw_Header w) key;
     rw_status := rw_status w; rw_body := rw_body w |}.

(** [http.Error]: plain-text headers, the status, the message and a newline. *)
Definition http_Error (w : ResponseWriter) (error : string) (code : Z) : ResponseWriter :=
  let w1 := delHeader "Content-Length" w in
  let w2 := setHeader "Content-Type" "text/plain; charset=utf-8" w1 in
  let w3 := setHeader "X-Content-Type-Options" "nosniff" w2 in
  Write (error +:+ String "010" "") (WriteHeader code w3).

(** What the client receives when the handler returns: a handler that wrote
    nothing yields an empty 200. *)
Definition sentStatus (w : ResponseWriter) : Z :=
  match rw_status w with Some c => c | None => StatusOK end.

(** On the connection. *)
Definition reply (f : ResponseWriter -> ResponseWriter) (c : Conn) : Conn :=
  {| conn_w := f (conn_w c); served := served c |}.

End Http.

(** [fmt]'s [%d]. *)
Definition fmt_d (n : Z) : string := NilZero.string_of_int (Z.to_int n).

(** [io.LimitReader]: at most [n] bytes of the body can be read. *)
Definition io_LimitReader (body : string) (n : Z) : string :=
  String.substring 0 (Z.to_nat n) body.
Arguments io_LimitReader : simpl never.

(** ** Byte-level operations of package net *)

Definition isnil {A} (l : list A) : bool :=
  match l with [] => true | _ => false end.

Definition bytesEqual (a b : list Z) : bool := bool_decide (a = b).

Definition IPv4len : nat := 4.
Definition IPv6len : nat := 16.

Definition v4InV6Prefix : list Z := [0; 0; 0; 0; 0; 0; 0; 0; 0; 0; 255; 255].
Definition IPv4bcast : IP := v4InV6Prefix ++ [255; 255; 255; 255].
Definition IPv4zero : IP := v4InV6Prefix ++ [0; 0; 0; 0].
Definition IPv6unspecified : IP := replicate 16 0.
Definition IPv6loopback : IP := replicate 15 0 ++ [1].

Definition IP_To4 (ip : IP) : IP :=
  if bool_decide (length ip = IPv4len) then ip
  else if bool_decide (length ip = IPv6len)
          && forallb (Z.eqb 0) (take 10 ip)
          && (nth 10 ip 0 =? 255) && (nth 11 ip 0 =? 255)
       then drop 12 ip
       else [].

Definition IP_Equal (ip x : IP) : bool :=
  if bool_decide (length ip = length x) then bytesEqual ip x
  else if bool_decide (length ip = IPv4len) && bool_decide (length x = IPv6len)
       then bytesEqual (take 12 x) v4InV6Prefix && bytesEqual ip (drop 12 x)
  else if bool_decide (length ip = IPv6len) && bool_decide (length x = IPv4len)
       then bytesEqual (take 12 ip) v4InV6Prefix && bytesEqual (drop 12 ip) x
  else false.

Definition IP_IsUnspecified (ip : IP) : bool :=
  IP_Equal ip IPv4zero || IP_Equal ip IPv6unspecified.

Definition IP_IsLoopback (ip : IP) : bool :=
  let ip4 := IP_To4 ip in
  if negb (isnil ip4) then nth 0 ip4 0 =? 127
  else IP_Equal ip IPv6loopback.

Definition IP_IsMulticast (ip : IP) : bool :=
  let ip4 := IP_To4 ip in
  if negb (isnil ip4) then Z.land (nth 0 ip4 0) 240 =? 224
  else bool_decide (length ip = IPv6len) && (nth 0 ip 0 =? 255).

Definition IP_IsLinkLocalUnicast (ip : IP) : bool :=
  let ip4 := IP_To4 ip in
  if negb (isnil ip4) then (nth 0 ip4 0 =? 169) && (nth 1 ip4 0 =? 254)
  else bool_decide (length ip = IPv6len)
       && (nth 0 ip 0 =? 254) && (Z.land (nth 1 ip 0) 192 =? 128).

Definition IP_IsGlobalUnicast (ip : IP) : bool :=
  (bool_decide (length ip = IPv4len) || bool_decide (length ip = IPv6len))
  && negb (IP_Equal ip IPv4bcast)
  && negb (IP_IsUnspecified ip)
  && negb (IP_IsLoopback ip)
  && negb (IP_IsMulticast ip)
  && negb (IP_IsLinkLocalUnicast ip).

(** [CIDRMask]: [ones] one bits followed by zero bits, [bits] in all. *)
Fixpoint maskLoop (l : nat) (n : Z) : list Z :=
  match l with
  | O => []
  | S l' => if 8 <=? n then 255 :: maskLoop l' (n - 8)
            else (255 - Z.shiftr 255 n) :: maskLoop l' 0
  end.

Definition net_CIDRMask (ones bits : Z) : list Z :=
  if negb (bits =? 32) && negb (bits =? 128) then []
  else if (ones <? 0) || (bits <? ones) then []
  else maskLoop (Z.to_nat (bits / 8)) ones.

Definition allFF (b : list Z) : bool := forallb (Z.eqb 255) b.

Definition zipAnd (a b : list Z) : list Z := zip_with Z.land a b.

(** [IP.Mask]. *)
Definition IP_Mask (ip : IP) (mask : list Z) : IP :=
  let mask := if bool_decide (length mask = IPv6len) && bool_decide (length ip = IPv4len)
                 && allFF (take 12 mask)
              then drop 12 mask else mask in
  let ip := if bool_decide (length mask = IPv4len) && bool_decide (length ip = IPv6len)
               && bytesEqual (take 12 ip) v4InV6Prefix
            then drop 12 ip else ip in
  if bool_decide (length ip = length mask) then zipAnd ip mask else [].

Definition networkNumberAndMask (n : IPNet) : IP * list Z :=
  let ip4 := IP_To4 (net_IP n) in
  let ip := if isnil ip4 then net_IP n else ip4 in
  if isnil ip4 && negb (bool_decide (length ip = IPv6len)) then ([], [])
  else
    let m := net_Mask n in
    if bool_decide (length m = IPv4len) then
      if bool_decide (length ip = IPv4len) then (ip, m) else ([], [])
    else if bool_decide (length m = IPv6len) then
      if bool_decide (length ip = IPv4len) then (ip, drop 12 m) else (ip, m)
    else ([], []).

(** [IPNet.Contains]. *)
Definition IPNet_Contains (n : IPNet) (ip : IP) : bool :=
  let '(nn, m) := networkNumberAndMask n in
  let x := IP_To4 ip in
  let ip := if isnil x then ip else x in
  if bool_decide (length ip = length nn)
  then bytesEqual (zipAnd nn (take (length ip) m)) (zipAnd ip (take (length ip) m))
  else false.

(** ** The allow-list of package p2p/netutil *)

(** Modelled from the spec: the type [netutil.Netlist] with its methods
    [Add] and [Contains]; the source of package p2p/netutil is not at hand.
    The spec describes an ordered set of IP/CIDR patterns, built once from
    configuration strings, with the single query whether an address matches
    any pattern.  A string that is no pattern leaves nothing to add, and the
    construction fails ([None]). *)
Definition Netlist := list IPNet.

Definition Netlist_Add `{GoLib} (l : Netlist) (cidr : string) : option Netlist :=
  match net_ParseCIDR cidr with
  | Some n => Some (l ++ [n])
  | None => None
  end.

Definition Netlist_Contains (l : Netlist) (ip : IP) : bool :=
  existsb (fun n => IPNet_Contains n ip) l.

(** ** The handlers of http.go *)

(** The implementations of [http.Handler] that [NewHTTPServer] composes. *)
Inductive Handler :=
| ServerHandler (srv : Server)
| corsHandler (c : cors_Options) (next : Handler)
| virtualHostHandler (vhosts : gset string) (next : Handler)
| allowIPHandler (allowedIPs : Netlist) (next : Handler) (behind : bool).

Section Handlers.
Context {go : GoLib}.

(** The inner loop of [getIP], [for i := len(addresses) - 1; i >= 0; i--],
    with [n = i + 1]; [None] when the loop ends without a return. *)
Fixpoint march (addresses : list string) (n : nat) : option IP :=
  match n with
  | O => None
  | S i =>
      let ip := strings_TrimSpace (nth i addresses "") in
      let realIP := net_ParseIP ip in
      if isnil realIP then march addresses i
      else if negb (IP_IsGlobalUnicast realIP) || netutil_IsLAN realIP
              || netutil_IsSpecialNetwork realIP
      then march addresses i
      else Some (net_ParseIP ip)
  end.

(** The outer loop over the header names. *)
Fixpoint forwarded (r : Request) (hs : list string) : option IP :=
  match hs with
  | [] => None
  | h :: hs' =>
      let addresses := strings_Split (Header_Get (ReqHeader r) h) "," in
      match march addresses (length addresses) with
      | Some ip => Some ip
      | None => forwarded r hs'
      end
  end.

Definition getIP (r : Request) (reverseproxy : bool) : IP :=
  match (if reverseproxy then forwarded r ["X-Forwarded-For"; "X-Real-Ip"] else None) with
  | Some ip => ip
  | None =>
      let remoteAddr :=
        match net_SplitHostPort (RemoteAddr r) with
        | Some (host, _) => host
        | None => nth 0 (strings_Split (RemoteAddr r) ":") ""
        end in
      net_ParseIP remoteAddr
  end.

(** The status code and the error; [(0, None)] for a valid request. *)
Definition validateRequest (r : Request) : Z * option string :=
  if bool_decide (Method r = MethodPut) || bool_decide (Method r = MethodDelete) then
    (StatusMethodNotAllowed, Some "method not allowed")
  else if maxHTTPRequestContentLength <? ContentLength r then
    (StatusRequestEntityTooLarge,
     Some ("content length too large (" +:+ fmt_d (ContentLength r) +:+ ">"
           +:+ fmt_d maxHTTPRequestContentLength +:+ ")"))
  else
    let '(mt, err) := mime_ParseMediaType (Header_Get (ReqHeader r) "content-type") in
    if negb (bool_decide (Method r = MethodOptions))
       && (negb (bool_decide (err = None)) || negb (bool_decide (mt = contentType)))
    then (StatusUnsupportedMediaType,
          Some ("invalid content type, only " +:+ contentType +:+ " is supported"))
    else (0, None).

(** [Server.ServeHTTP]. *)
Definition Server_ServeHTTP (srv : Server) (r : Request) (c : Conn) : Conn :=
  if bool_decide (Method r = MethodGet) && (ContentLength r =? 0)
     && bool_decide (URL_RawQuery r = "")
  then c
  else
    let uip := getIP r (reverseproxy srv) in (* logged, not used *)
    match validateRequest r with
    | (code, Some err) => reply (fun w => http_Error w err code) c
    | (_, None) =>
        let body := io_LimitReader (Body r) maxHTTPRequestContentLength in
        let w := setHeader "content-type" contentType (conn_w c) in
        {| conn_w := ServeSingleRequest srv body w; served := served c ++ [body] |}
    end.

Definition newCorsHandler (srv : Server) (allowedOrigins : list string) : Handler :=
  if bool_decide (length allowedOrigins = 0%nat) then ServerHandler srv
  else corsHandler {| AllowedOrigins := allowedOrigins;
                      AllowedMethods := [MethodPost; MethodGet];
                      MaxAge := 600;
                      AllowedHeaders := ["*"] |}
                   (ServerHandler srv).

(** [virtualHostHandler.ServeHTTP], over the [ServeHTTP] of [h.next]. *)
Definition virtualHostHandler_ServeHTTP (vhosts : gset string) (next : HandlerFunc)
    (r : Request) (c : Conn) : Conn :=
  if bool_decide (Host r = "") then next r c
  else
    let host := match net_SplitHostPort (Host r) with
                | Some (host, _) => host
                | None => Host r
                end in
    if negb (isnil (net_ParseIP host)) then next r c
    else if bool_decide ("*" ∈ vhosts) then next r c
    else if bool_decide (host ∈ vhosts) then next r c
    else reply (fun w => http_Error w "invalid host specified" StatusForbidden) c.

Definition newVHostHandler (vhosts : list string) (next : Handler) : Handler :=
  let vhostMap :=
    foldl (fun m allowedHost => {[strings_ToLower allowedHost]} ∪ m) (∅ : gset string) vhosts in
  virtualHostHandler vhostMap next.

(** [allowIPHandler.ServeHTTP], over the [ServeHTTP] of [h.next]. *)
Definition allowIPHandler_ServeHTTP (allowedIPs : Netlist) (next : HandlerFunc)
    (behind : bool) (r : Request) (c : Conn) : Conn :=
  let ip := getIP r behind in
  if Netlist_Contains allowedIPs ip then next r c
  else reply (fun w => http_Error w "" StatusForbidden) c.

Fixpoint addAll (l : Netlist) (allowIPmasks : list string) : option Netlist :=
  match allowIPmasks with
  | [] => Some l
  | m :: ms => match Netlist_Add l m with
               | Some l' => addAll l' ms
               | None => None
               end
  end.

(** [None] when a pattern makes [Add] fail. *)
Definition newAllowIPHandler (allowIPmasks : list string) (behindreverseproxy : bool)
    (next : Handler) : option Handler :=
  match addAll [] allowIPmasks with
  | Some allowIPMap => Some (allowIPHandler allowIPMap next behindreverseproxy)
  | None => None
  end.

(** The handler of the [http.Server] that [NewHTTPServer] returns. *)
Definition NewHTTPServer (cors vhosts allowIP : list string) (behindreverseproxy : bool)
    (srv : Server) : option Handler :=
  let handler := newCorsHandler srv cors in
  let handler := newVHostHandler vhosts handler in
  newAllowIPHandler allowIP behindreverseproxy handler.

(** Method dispatch of the interface [http.Handler]. *)
Fixpoint ServeHTTP (h : Handler) : HandlerFunc :=
  match h with
  | ServerHandler srv => Server_ServeHTTP srv
  | corsHandler o next => cors_Handler o (ServeHTTP next)
  | virtualHostHandler vhosts next => virtualHostHandler_ServeHTTP vhosts (ServeHTTP next)
  | allowIPHandler allowedIPs next behind =>
      allowIPHandler_ServeHTTP allowedIPs (ServeHTTP next) behind
  end.

End Handlers.

(** ** An implementation of the library boundary for 7-bit text

    The functions follow the current Go standard library on input made of
    ASCII bytes; bytes above 127 are left alone by the case and space
    functions, where Go would decode UTF-8. *)

Module GoModel.

Definition byteOf (c : ascii) : Z := Z.of_N (N_of_ascii c).
Definition byteIn (lo hi : Z) (c : ascii) : bool := (lo <=? byteOf c) && (byteOf c <=? hi).
Definition isDigit (c : ascii) : bool := byteIn 48 57 c.
Definition isUpper (c : ascii) : bool := byteIn 65 90 c.
Definition isLower (c : ascii) : bool := byteIn 97 122 c.
Definition digitVal (c : ascii) : Z := byteOf c - 48.
Definition shiftByte (d : Z) (c : ascii) : ascii := ascii_of_N (Z.to_N (byteOf c + d)).

Definition isEmpty (s : string) : bool :=
  match s with EmptyString => true | _ => false end.

(** [s[i:j]] and [s[i:]]. *)
Definition slice (s : string) (i j : nat) : string := String.substring i (j - i) s.
Definition sliceFrom (s : string) (i : nat) : string :=
  String.substring i (String.length s - i) s.

Fixpoint IndexByte (s : string) (c : ascii) : option nat :=
  match s with
  | EmptyString => None
  | String a s' => if Ascii.eqb a c then Some O else S <$> IndexByte s' c
  end.

Fixpoint LastIndexByte (s : string) (c : ascii) : option nat :=
  match s with
  | EmptyString => None
  | String a s' =>
      match LastIndexByte s' c with
      | Some i => Some (S i)
      | None => if Ascii.eqb a c then Some O else None
      end
  end.

Definition containsByte (s : string) (c : ascii) : bool :=
  match IndexByte s c with Some _ => true | None => false end.

(** *** package strings *)

Fixpoint ToLower (s : string) : string :=
  match s with
  | EmptyString => EmptyString
  | String c s' => String (if isUpper c then shiftByte 32 c else c) (ToLower s')
  end.

(** Tab, line feed, vertical tab, form feed, carriage return, space. *)
Definition isSpace (c : ascii) : bool := byteIn 9 13 c || (byteOf c =? 32).

Fixpoint TrimLeftSpace (s : string) : string :=
  match s with
  | String c s' => if isSpace c then TrimLeftSpace s' else s
  | EmptyString => EmptyString
  end.

Fixpoint TrimRightSpace (s : string) : string :=
  match s with
  | EmptyString => EmptyString
  | String c s' =>
      let t := TrimRightSpace s' in
      if isSpace c && isEmpty t then EmptyString else String c t
  end.

Definition TrimSpace (s : string) : string := TrimRightSpace (TrimLeftSpace s).

(** The scan of [strings.Split] for a separator that is not empty: [skip]
    bytes of a separator just found are still to be passed over, [cur] is
    the piece being read. *)
Fixpoint splitScan (sep : string) (skip : nat) (s cur : string) : list string :=
  match s with
  | EmptyString => [cur]
  | String c s' =>
      match skip with
      | S k => splitScan sep k s' cur
      | O => if String.prefix sep s
             then cur :: splitScan sep (String.length sep - 1) s' ""
             else splitScan sep O s' (cur +:+ String c "")
      end
  end.

Definition Split (s sep : string) : list string :=
  if isEmpty sep then (fun c => String c "") <$> String.list_ascii_of_string s
  else splitScan sep O s "".

(** [strings.Cut]. *)
Definition CutByte (s : string) (c : ascii) : string * string * bool :=
  match IndexByte s c with
  | Some i => (slice s 0 i, sliceFrom s (S i), true)
  | None => (s, "", false)
  end.

(** *** package net *)

Definition SplitHostPort (hostport : string) : option (string * string) :=
  match LastIndexByte hostport ":" with
  | None => None
  | Some i =>
      let located :=
        if String.prefix "[" hostport then
          match IndexByte hostport "]" with
          | None => None
          | Some e =>
              if bool_decide (S e = String.length hostport) then None
              else if bool_decide (S e = i) then Some (slice hostport 1 e, 1%nat, S e)
              else None
          end
        else
          let host := slice hostport 0 i in
          if containsByte host ":" then None else Some (host, O, O) in
      match located with
      | None => None
      | Some (host, j, k) =>
          if containsByte (sliceFrom hostport j) "[" then None
          else if containsByte (sliceFrom hostport k) "]" then None
          else Some (host, sliceFrom hostport (S i))
      end
  end.

(** The loop of [parseIPv4Fields]: the octet being read, its digit count,
    the octets done; [first] at index 0, [prevDot] after a dot. *)
Fixpoint v4Fields (s : string) (first prevDot : bool) (val : Z) (digLen : nat)
    (fields : list Z) : option (list Z) :=
  match s with
  | EmptyString => if bool_decide (length fields < 3)%nat then None else Some (fields ++ [val])
  | String c s' =>
      if isDigit c then
        if bool_decide (digLen = 1%nat) && (val =? 0) then None
        else let val' := val * 10 + digitVal c in
             if 255 <? val' then None
             else v4Fields s' false false val' (S digLen) fields
      else if Ascii.eqb c "." then
        if first || isEmpty s' || prevDot then None
        else if bool_decide (length fields = 3%nat) then None
        else v4Fields s' false true 0 O (fields ++ [val])
      else None
  end.

Definition parseIPv4Fields (s : string) : option (list Z) := v4Fields s true false 0 O [].

Definition hexVal (c : ascii) : option Z :=
  if isDigit c then Some (digitVal c)
  else if byteIn 97 102 c then Some (byteOf c - 97 + 10)
  else if byteIn 65 70 c then Some (byteOf c - 65 + 10)
  else None.

(** The hex digits at the head of [s]: value, count and the rest. *)
Fixpoint hexRun (s : string) (off : nat) (acc : Z) : option (Z * nat * string) :=
  match s with
  | EmptyString => Some (acc, off, s)
  | String c s' =>
      match hexVal c with
      | None => Some (acc, off, s)
      | Some d =>
          let acc' := acc * 16 + d in
          if bool_decide (3 < off)%nat then None
          else if 65535 <? acc' then None
          else hexRun s' (S off) acc'
      end
  end.

(** The group loop of [parseIPv6]; the position [i] is [length ip]. *)
Fixpoint v6Groups (fuel : nat) (s : string) (ip : list Z) (ellipsis : option nat)
    : option (string * list Z * option nat) :=
  if bool_decide (16 <= length ip)%nat then Some (s, ip, ellipsis)
  else match fuel with
  | O => None
  | S fuel' =>
      match hexRun s O 0 with
      | None => None
      | Some (acc, off, rest) =>
          if bool_decide (off = O) then None
          else if String.prefix "." rest then
            if isnil (option_list ellipsis) && negb (bool_decide (length ip = 12%nat)) then None
            else if bool_decide (16 < length ip + 4)%nat then None
            else match parseIPv4Fields s with
                 | Some v4 => Some ("", ip ++ v4, ellipsis)
                 | None => None
                 end
          else
            let ip' := ip ++ [Z.shiftr acc 8; Z.land acc 255] in
            match rest with
            | EmptyString => Some ("", ip', ellipsis)
            | String c rest1 =>
                if negb (Ascii.eqb c ":") then None
                else match rest1 with
                     | EmptyString => None
                     | String c2 rest2 =>
                         if Ascii.eqb c2 ":" then
                           match ellipsis with
                           | Some _ => None
                           | None =>
                               if isEmpty rest2 then Some ("", ip', Some (length ip'))
                               else v6Groups fuel' rest2 ip' (Some (length ip'))
                           end
                         else v6Groups fuel' rest1 ip' ellipsis
                     end
            end
      end
  end.

Definition parseIPv6 (s : string) : option (list Z) :=
  if containsByte s "%" then None
  else
    let '(s, ellipsis) :=
      if String.prefix "::" s then (sliceFrom s 2, Some O) else (s, None) in
    if isnil (option_list ellipsis) then
      match v6Groups 9 s [] ellipsis with
      | Some (EmptyString, ip, e) =>
          if bool_decide (length ip < 16)%nat then
            match e with
            | None => None
            | Some p => Some (take p ip ++ replicate (16 - length ip) 0 ++ drop p ip)
            end
          else match e with Some _ => None | None => Some ip end
      | _ => None
      end
    else if isEmpty s then Some IPv6unspecified
    else
      match v6Groups 9 s [] ellipsis with
      | Some (EmptyString, ip, Some p) =>
          if bool_decide (length ip < 16)%nat
          then Some (take p ip ++ replicate (16 - length ip) 0 ++ drop p ip)
          else None
      | _ => None
      end.

(** [netip.ParseAddr] without zones: whether the text was dotted decimal,
    and the 16-byte form. *)
Fixpoint parseAddr (s whole : string) : option (bool * list Z) :=
  match s with
  | EmptyString => None
  | String c s' =>
      if Ascii.eqb c "." then (fun v4 => (true, v4InV6Prefix ++ v4)) <$> parseIPv4Fields whole
      else if Ascii.eqb c ":" then (fun v6 => (false, v6)) <$> parseIPv6 whole
      else if Ascii.eqb c "%" then None
      else parseAddr s' whole
  end.

Definition ParseIP (s : string) : IP :=
  match parseAddr s s with
  | Some (_, ip) => ip
  | None => []
  end.

(** [dtoi] on a string that must be digits throughout. *)
Fixpoint dtoi (s : string) (n : Z) : option Z :=
  match s with
  | EmptyString => Some n
  | String c s' =>
      if isDigit c then
        let n' := n * 10 + digitVal c in
        if 16777215 <=? n' then None else dtoi s' n'
      else None
  end.

Definition ParseCIDR (s : string) : option IPNet :=
  match CutByte s "/" with
  | (_, _, false) => None
  | (addr, mask, true) =>
      match parseAddr addr addr with
      | None => None
      | Some (is4, ip) =>
          let bitLen := if is4 then 32 else 128 in
          if isEmpty mask then None
          else match dtoi mask 0 with
               | None => None
               | Some n =>
                   if bitLen <? n then None
                   else let m := net_CIDRMask n bitLen in
                        Some {| net_IP := IP_Mask ip m; net_Mask := m |}
               end
      end
  end.

(** *** package mime *)

Definition tspecials : string := "()<>@,;:\/[]?=" +:+ String "034" "".
Definition isTSpecial (c : ascii) : bool := containsByte tspecials c.
Definition isTokenChar (c : ascii) : bool :=
  (32 <? byteOf c) && (byteOf c <? 127) && negb (isTSpecial c).

Fixpoint consumeToken (v : string) : string * string :=
  match v with
  | EmptyString => ("", "")
  | String c v' =>
      if isTokenChar c then let '(t, rest) := consumeToken v' in (String c t, rest)
      else ("", v)
  end.

Definition checkMediaTypeDisposition (s : string) : option string :=
  let '(typ, rest) := consumeToken s in
  if isEmpty typ then Some "mime: no media type"
  else if isEmpty rest then None
  else if negb (String.prefix "/" rest) then Some "mime: expected slash after first token"
  else
    let '(subtype, rest) := consumeToken (sliceFrom rest 1) in
    if isEmpty subtype then Some "mime: expected token after slash"
    else if negb (isEmpty rest) then Some "mime: unexpected content after media subtype"
    else None.

(** The body of a quoted string, after the opening quote. *)
Fixpoint quotedString (v buffer : string) : option (string * string) :=
  match v with
  | EmptyString => None
  | String r v' =>
      if Ascii.eqb r "034" then Some (buffer, v')
      else
        let literal :=
          if Ascii.eqb r "013" || Ascii.eqb r "010" then None
          else quotedString v' (buffer +:+ String r "") in
        if Ascii.eqb r "\" then
          match v' with
          | String n v'' =>
              if isTSpecial n then quotedString v'' (buffer +:+ String n "") else literal
          | EmptyString => literal
          end
        else literal
  end.

Definition consumeValue (v : string) : string * string :=
  match v with
  | EmptyString => ("", "")
  | String c v' =>
      if negb (Ascii.eqb c "034") then consumeToken v
      else match quotedString v' "" with
           | Some (value, rest) => (value, rest)
           | None => ("", v)
           end
  end.

Definition consumeMediaParam (v : string) : string * string * string :=
  let rest := TrimLeftSpace v in
  if negb (String.prefix ";" rest) then ("", "", v)
  else
    let rest := TrimLeftSpace (sliceFrom rest 1) in
    let '(param, rest) := consumeToken rest in
    let param := ToLower param in
    if isEmpty param then ("", "", v)
    else
      let rest := TrimLeftSpace rest in
      if negb (String.prefix "=" rest) then ("", "", v)
      else
        let rest := TrimLeftSpace (sliceFrom rest 1) in
        let '(value, rest2) := consumeValue rest in
        if isEmpty value && bool_decide (rest2 = rest) then ("", "", v)
        else (param, value, rest2).

(** The parameter loop; [seen] holds the parameters read so far. *)
Fixpoint mediaParams (fuel : nat) (v mediatype : string) (seen : list (string * string))
    : string * option string :=
  match fuel with
  | O => (mediatype, None)
  | S fuel' =>
      let v := TrimLeftSpace v in
      if isEmpty v then (mediatype, None)
      else
        let '(key, value, rest) := consumeMediaParam v in
        if isEmpty key then
          if bool_decide (TrimSpace rest = ";") then (mediatype, None)
          else (mediatype, Some "mime: invalid media parameter")
        else
          match list_find (fun kv => kv.1 = key) seen with
          | Some (_, (_, v0)) =>
              if bool_decide (v0 = value) then mediaParams fuel' rest mediatype seen
              else ("", Some "mime: duplicate parameter name")
          | None => mediaParams fuel' rest mediatype ((key, value) :: seen)
          end
  end.

Definition ParseMediaType (v : string) : string * option string :=
  let '(base, _, _) := CutByte v ";" in
  let mediatype := TrimSpace (ToLower base) in
  match checkMediaTypeDisposition mediatype with
  | Some e => ("", Some e)
  | None => mediaParams (S (String.length v)) (sliceFrom v (String.length base)) mediatype []
  end.

(** *** package net/textproto *)

Definition validHeaderFieldByte (c : ascii) : bool :=
  isDigit c || isUpper c || isLower c || containsByte "!#$%&'*+-.^_`|~" c.

Fixpoint canonical (s : string) (upper : bool) : string :=
  match s with
  | EmptyString => EmptyString
  | String c s' =>
      let c' := if upper && isLower c then shiftByte (-32) c
                else if negb upper && isUpper c then shiftByte 32 c
                else c in
      String c' (canonical s' (Ascii.eqb c' "-"))
  end.

Definition CanonicalMIMEHeaderKey (s : string) : string :=
  if forallb validHeaderFieldByte (String.list_ascii_of_string s) then canonical s true else s.

(** *** package p2p/netutil *)

Definition mustAdd (l : Netlist) (cidr : string) : Netlist :=
  match ParseCIDR cidr with
  | Some n => l ++ [n]
  | None => l
  end.

(** Modelled from the spec: the blocks behind [netutil.IsLAN]; the source of
    package p2p/netutil is not at hand.  The spec names the class only, "a
    private/LAN address", and calls 10.0.0.5 and 10.0.0.1 private; the
    blocks are the private-use and local ones of the IANA registries. *)
Definition lan4 : Netlist := Eval vm_compute in
  foldl mustAdd [] ["0.0.0.0/8"; "10.0.0.0/8"; "172.16.0.0/12"; "192.168.0.0/16"].

Definition lan6 : Netlist := Eval vm_compute in
  foldl mustAdd [] ["fe80::/10"; "fc00::/7"].

(** Modelled from the spec: the blocks behind [netutil.IsSpecialNetwork]; the
    source of package p2p/netutil is not at hand.  The spec names the class
    only, "a reserved/special-use network", and fixes one address: in its
    testable properties the resolver returns 203.0.113.7 as a global-unicast,
    non-private entry.  The blocks are the special-purpose ones of the IANA
    registries without the documentation blocks, to which that address
    belongs. *)
Definition special4 : Netlist := Eval vm_compute in
  foldl mustAdd []
    ["192.0.0.0/29"; "192.0.0.9/32"; "192.0.0.170/32"; "192.0.0.171/32";
     "192.31.196.0/24"; "192.52.193.0/24"; "192.88.99.0/24";
     "192.175.48.0/24"; "198.18.0.0/15"; "255.255.255.255/32"].

Definition special6 : Netlist := Eval vm_compute in
  foldl mustAdd []
    ["100::/64"; "2001::/32"; "2001:1::1/128"; "2001:2::/48"; "2001:3::/32";
     "2001:4:112::/48"; "2001:5::/32"; "2001:10::/28"; "2001:20::/28";
     "2002::/16"].

(** Modelled from the spec: [netutil.IsLAN], "a private/LAN address";
    loopback addresses count as local. *)
Definition IsLAN (ip : IP) : bool :=
  if IP_IsLoopback ip then true
  else
    let v4 := IP_To4 ip in
    if negb (isnil v4) then Netlist_Contains lan4 v4
    else Netlist_Contains lan6 ip.

(** Modelled from the spec: [netutil.IsSpecialNetwork], "a reserved/special-use
    network"; multicast addresses count as special, the address 203.0.113.7
    of the spec's example does not. *)
Definition IsSpecialNetwork (ip : IP) : bool :=
  if IP_IsMulticast ip then true
  else
    let v4 := IP_To4 ip in
    if negb (isnil v4) then Netlist_Contains special4 v4
    else Netlist_Contains special6 ip.

(** *** package rs/cors

    The handler of [cors.New(options).Handler(next)] for the options that
    [newCorsHandler] sets: a preflight request is answered by the layer, any
    other request gets the response headers and goes on to [next].  Origin
    patterns with an inner wildcard are not matched. *)

Definition headerGet (h : Header) (key : string) : string :=
  match h !! CanonicalMIMEHeaderKey key with
  | Some (v :: _) => v
  | _ => ""
  end.

Definition headerAdd (key value : string) (w : ResponseWriter) : ResponseWriter :=
  let k := CanonicalMIMEHeaderKey key in
  {| rw_Header := <[k := default [] (rw_Header w !! k) ++ [value]]> (rw_Header w);
     rw_status := rw_status w; rw_body := rw_body w |}.

Definition headerSet (key value : string) (w : ResponseWriter) : ResponseWriter :=
  {| rw_Header := <[CanonicalMIMEHeaderKey key := [value]]> (rw_Header w);
     rw_status := rw_status w; rw_body := rw_body w |}.

Definition allowedOriginsAll (o : cors_Options) : bool := bool_decide ("*" ∈ AllowedOrigins o).

Definition isOriginAllowed (o : cors_Options) (origin : string) : bool :=
  allowedOriginsAll o || bool_decide (ToLower origin ∈ ToLower <$> AllowedOrigins o).

Definition isMethodAllowed (o : cors_Options) (method : string) : bool :=
  negb (isnil (AllowedMethods o))
  && (bool_decide (method = MethodOptions) || bool_decide (method ∈ AllowedMethods o)).

Definition allowOrigin (o : cors_Options) (origin : string) (w : ResponseWriter) : ResponseWriter :=
  headerSet "Access-Control-Allow-Origin" (if allowedOriginsAll o then "*" else origin) w.

Definition handlePreflight (o : cors_Options) (r : Request) (w : ResponseWriter) : ResponseWriter :=
  let origin := headerGet (ReqHeader r) "Origin" in
  let w := headerAdd "Vary" "Access-Control-Request-Headers"
             (headerAdd "Vary" "Access-Control-Request-Method" (headerAdd "Vary" "Origin" w)) in
  let reqMethod := headerGet (ReqHeader r) "Access-Control-Request-Method" in
  if isEmpty origin || negb (isOriginAllowed o origin) || negb (isMethodAllowed o reqMethod)
  then w
  else
    let w := headerSet "Access-Control-Allow-Methods" reqMethod (allowOrigin o origin w) in
    let reqHeaders := headerGet (ReqHeader r) "Access-Control-Request-Headers" in
    let w := if isEmpty reqHeaders then w
             else headerSet "Access-Control-Allow-Headers" reqHeaders w in
    if 0 <? MaxAge o then headerSet "Access-Control-Max-Age" (fmt_d (MaxAge o)) w else w.

Definition handleActualRequest (o : cors_Options) (r : Request) (w : ResponseWriter)
    : ResponseWriter :=
  let origin := headerGet (ReqHeader r) "Origin" in
  let w := headerAdd "Vary" "Origin" w in
  if isEmpty origin || negb (isOriginAllowed o origin) || negb (isMethodAllowed o (Method r))
  then w
  else allowOrigin o origin w.

Definition corsServe (o : cors_Options) (next : HandlerFunc) (r : Request) (c : Conn) : Conn :=
  if bool_decide (Method r = MethodOptions)
     && negb (isEmpty (headerGet (ReqHeader r) "Access-Control-Request-Method"))
  then {| conn_w := let w := handlePreflight o r (conn_w c) in
                    match rw_status w with
                    | Some _ => w
                    | None => {| rw_Header := rw_Header w; rw_status := Some StatusOK;
                                 rw_body := rw_body w |}
                    end;
          served := served c |}
  else next r {| conn_w := handleActualRequest o r (conn_w c); served := served c |}.

End GoModel.

#[export] Instance GoASCII : GoLib := {|
  strings_ToLower := GoModel.ToLower;
  strings_TrimSpace := GoModel.TrimSpace;
  strings_Split := GoModel.Split;
  net_SplitHostPort := GoModel.SplitHostPort;
  net_ParseIP := GoModel.ParseIP;
  net_ParseCIDR := GoModel.ParseCIDR;
  mime_ParseMediaType := GoModel.ParseMediaType;
  textproto_CanonicalMIMEHeaderKey := GoModel.CanonicalMIMEHeaderKey;
  netutil_IsLAN := GoModel.IsLAN;
  netutil_IsSpecialNetwork := GoModel.IsSpecialNetwork;
  cors_Handler := GoModel.corsServe
|}.

(** * The release script build/ci.go

    The functions of the script that compute names, versions and flags.
    What they read from outside is an argument: [VERSION] is the result of
    [build.VERSION], [GOOS] is [runtime.GOOS], [osenv] the variables of the
    process environment.  A slice out of range is [None]. *)

(** [build.Environment] (package internal/build): the fields the script
    reads. *)
Record Environment := {
  Commit : string; Tag : string; Branch : string; Buildnum : string;
  IsPullRequest : bool; IsCronJob : bool;
  Config : gmap string bool
}.

Record debExecutable := { Name : string; Description : string }.

Record debMetadata := {
  Env : Environment;
  Version : string;
  Author : string;
  Distro : string; Time : string;
  Executables : list debExecutable
}.

Fixpoint strings_Join (elems : list string) (sep : string) : string :=
  match elems with
  | [] => ""
  | [x] => x
  | x :: rest => x +:+ sep +:+ strings_Join rest sep
  end.

Definition strings_HasPrefix (s prefix : string) : bool := String.prefix prefix s.

Definition os_Getenv (osenv : gmap string string) (key : string) : string :=
  default "" (osenv !! key).

(** Reading a key of a Go map of booleans: false when the key is absent. *)
Definition configFlag (env : Environment) (key : string) : bool :=
  default false (Config env !! key).

Definition isUnstableBuild (env : Environment) : bool :=
  if negb (bool_decide (Tag env = "")) then false else true.

Definition archiveVersion (VERSION : string) (env : Environment) : option string :=
  let version := VERSION in
  let version := if isUnstableBuild env then version +:+ "-unstable" else version in
  if negb (bool_decide (Commit env = "")) then
    if bool_decide (8 <= String.length (Commit env))%nat
    then Some (version +:+ "-" +:+ String.substring 0 8 (Commit env))
    else None
  else Some version.

Definition archiveBasename (VERSION GOOS : string) (osenv : gmap string string)
    (arch : string) (env : Environment) : option string :=
  let platform := GOOS +:+ "-" +:+ arch in
  let platform := if bool_decide (arch = "arm") then platform +:+ os_Getenv osenv "GOARM"
                  else platform in
  let platform := if bool_decide (arch = "android") then "android-all" else platform in
  let platform := if bool_decide (arch = "ios") then "ios-all" else platform in
  match archiveVersion VERSION env with
  | Some version => Some (platform +:+ "-" +:+ version)
  | None => None
  end.

(** [true] when the script exits instead of archiving. *)
Definition maybeSkipArchive (env : Environment) : bool :=
  if IsPullRequest env then true
  else if IsCronJob env then true
  else if negb (bool_decide (Branch env = "master")) && negb (strings_HasPrefix (Tag env) "v1.")
  then true
  else false.

(** The flags, and the process environment after the call. *)
Definition buildFlags (env : Environment) (osenv : gmap string string)
    : list string * gmap string string :=
  let ld : list string := [] in
  let gc : list string := [] in
  let tags : list string := [] in
  let flags : list string := [] in
  let ld := if negb (bool_decide (Commit env = ""))
            then ld ++ ["-X"; "main.gitCommit=" +:+ Commit env] else ld in
  let ld := ld ++ ["-s"] in
  let ld := ld ++ ["-w"] in
  let tags := tags ++ ["netgo"; "osusergo"] in
  let '(flags, osenv) :=
    if configFlag env "musl"
    then (flags ++ ["-installsuffix"; "musl"], <["CC" := "musl-gcc"]> osenv)
    else (flags, osenv) in
  let '(ld, tags) :=
    if configFlag env "static"
    then ((ld ++ ["-linkmode external"]) ++ ["-extldflags -static"], tags ++ ["static"])
    else (ld, tags) in
  let tags := if configFlag env "usb" then tags ++ ["usb"] else tags in
  let flags := if configFlag env "race" then flags ++ ["-race"] else flags in
  let flags := if configFlag env "v" then flags ++ ["-v"] else flags in
  let flags := if bool_decide (0 < length tags)%nat
               then flags ++ ["-tags"; strings_Join tags " "] else flags in
  let flags := if bool_decide (0 < length gc)%nat
               then flags ++ ["-gcflags"; strings_Join gc " "] else flags in
  let flags := flags ++ ["-ldflags"; strings_Join ld " "] in
  (flags, osenv).

(** [debMetadata.Name]. *)
Definition debMetadata_Name (meta : debMetadata) : string :=
  if isUnstableBuild (Env meta) then "aquachain-unstable" else "aquachain".

(** [debMetadata.VersionString]. *)
Definition debMetadata_VersionString (meta : debMetadata) : string :=
  let vsn := Version meta in
  let vsn := if negb (bool_decide (Buildnum (Env meta) = ""))
             then vsn +:+ "+build" +:+ Buildnum (Env meta) else vsn in
  let vsn := if negb (bool_decide (Distro meta = "")) then vsn +:+ "+" +:+ Distro meta else vsn in
  vsn.

(** [debMetadata.ExeName]. *)
Definition debMetadata_ExeName (meta : debMetadata) (exe : debExecutable) : string :=
  if isUnstableBuild (Env meta) then Name exe +:+ "-unstable" else Name exe.

(** [debMetadata.ExeList]. *)
Definition debMetadata_ExeList (meta : debMetadata) : string :=
  let names := debMetadata_ExeName meta <$> Executables meta in
  strings_Join names ", ".

(** [debMetadata.ExeConflicts]. *)
Definition debMetadata_ExeConflicts (meta : debMetadata) (exe : debExecutable) : string :=
  if isUnstableBuild (Env meta) then "aquachain, " +:+ Name exe else "".

(** A build environment with the given commit, tag and branch. *)
Definition mkEnv (commit tag branch : string) (config : list (string * bool)) : Environment :=
  {| Commit := commit; Tag := tag; Branch := branch; Buildnum := "";
     IsPullRequest := false; IsCronJob := false; Config := list_to_map config |}.

(** * Properties *)

(** ** Requests and connections used as concrete inputs *)

Definition emptyWriter : ResponseWriter :=
  {| rw_Header := ∅; rw_status := None; rw_body := "" |}.

Definition freshConn : Conn := {| conn_w := emptyWriter; served := [] |}.

(** A dispatcher that answers every request with the same bytes. *)
Definition echoServer : Server :=
  {| reverseproxy := false;
     ServeSingleRequest := fun body w => Write "{}" w |}.

Definition mkRequest (method host remoteAddr : string) (contentLength : Z)
    (header : list (string * string)) (body : string) : Request :=
  {| Method := method; Host := host; RemoteAddr := remoteAddr;
     ContentLength := contentLength; URL_RawQuery := "";
     ReqHeader := list_to_map ((fun kv => (kv.1, [kv.2])) <$> header);
     Body := body |}.

(** A health-check poll: no body, no query, no content type. *)
Definition probe : Request := mkRequest "GET" "node.example:8545" "10.0.0.9:51000" 0 [] "".

(** A request behind a trusted proxy; [xff] is the X-Forwarded-For value. *)
Definition proxied (xff remoteAddr : string) : Request :=
  mkRequest "POST" "node.example:8545" remoteAddr 2
            [("X-Forwarded-For", xff); ("Content-Type", "application/json")] "{}".

(** The spec's description of the forwarded-for entry that is returned: it
    parses as an IP, is a global-unicast address, and is neither a
    private/LAN address nor in a reserved/special-use network. *)
Definition qualifies `{GoLib} (entry : string) : bool :=
  let realIP := net_ParseIP (strings_TrimSpace entry) in
  negb (isnil realIP) && IP_IsGlobalUnicast realIP
  && negb (netutil_IsLAN realIP) && negb (netutil_IsSpecialNetwork realIP).

(** The host portion of the transport-level remote address. *)
Definition remoteHost `{GoLib} (remoteAddr : string) : string :=
  match net_SplitHostPort remoteAddr with
  | Some (host, _) => host
  | None => nth 0 (strings_Split remoteAddr ":") ""
  end.

(** The Host value after port stripping. *)
Definition hostOnly `{GoLib} (hostport : string) : string :=
  match net_SplitHostPort hostport with
  | Some (host, _) => host
  | None => hostport
  end.

(** The answer of a gate that turns a request away. *)
Definition forbidden `{GoLib} (msg : string) (c : Conn) : Conn :=
  reply (fun w => http_Error w msg StatusForbidden) c.

(** ** Response primitives *)

Section HttpFacts.
Context {go : GoLib}.

Lemma http_Error_status (w : ResponseWriter) (msg : string) (code : Z) :
  rw_status w = None -> rw_status (http_Error w msg code) = Some code.
Proof.
  intros Hw. unfold http_Error, Write, WriteHeader, setHeader, delHeader.
  cbn. rewrite Hw. reflexivity.
Qed.

Lemma http_Error_body (w : ResponseWriter) (msg : string) (code : Z) :
  rw_body (http_Error w msg code) = rw_body w +:+ msg +:+ String "010" "".
Proof.
  unfold http_Error, Write, WriteHeader, setHeader, delHeader. cbn.
  destruct (rw_status w); reflexivity.
Qed.

Lemma reply_served (f : ResponseWriter -> ResponseWriter) (c : Conn) :
  served (reply f c) = served c.
Proof. reflexivity. Qed.

End HttpFacts.

(** ** The base handler *)

Section BaseHandler.
Context {go : GoLib}.

Lemma validateRequest_method (r : Request) :
  Method r = MethodPut \/ Method r = MethodDelete ->
  validateRequest r = (StatusMethodNotAllowed, Some "method not allowed").
Proof.
  intros Hm. unfold validateRequest.
  destruct Hm as [-> | ->]; reflexivity.
Qed.

Lemma validateRequest_codes (r : Request) :
  Method r <> MethodPut -> Method r <> MethodDelete ->
  (validateRequest r).1 = StatusRequestEntityTooLarge
  \/ (validateRequest r).1 = StatusUnsupportedMediaType
  \/ validateRequest r = (0, None).
Proof.
  intros Hp Hd. unfold validateRequest.
  rewrite !bool_decide_eq_false_2 by assumption. cbn [orb].
  destruct (maxHTTPRequestContentLength <? ContentLength r); [left; reflexivity |].
  destruct (mime_ParseMediaType _) as [mt err].
  destruct (negb _ && _); [right; left | right; right]; reflexivity.
Qed.

(** C8: [validateRequest] answers 405, with the message "method not allowed",
    exactly when the method is PUT or DELETE; for every other method the
    result is 413, 415 or acceptance, as the size and content-type checks
    decide. *)
Theorem validateRequest_405_iff (r : Request) :
  (validateRequest r = (StatusMethodNotAllowed, Some "method not allowed")
   <-> Method r = MethodPut \/ Method r = MethodDelete)
  /\ ((validateRequest r).1 = StatusMethodNotAllowed
      <-> Method r = MethodPut \/ Method r = MethodDelete)
  /\ (~ (Method r = MethodPut \/ Method r = MethodDelete) ->
      (validateRequest r).1 = StatusRequestEntityTooLarge
      \/ (validateRequest r).1 = StatusUnsupportedMediaType
      \/ validateRequest r = (0, None)).
Proof.
  assert (Hcode : (validateRequest r).1 = StatusMethodNotAllowed ->
                  Method r = MethodPut \/ Method r = MethodDelete).
  { intros Hc.
    destruct (decide (Method r = MethodPut)) as [|Hp]; [by left |].
    destruct (decide (Method r = MethodDelete)) as [|Hd]; [by right |].
    destruct (validateRequest_codes r Hp Hd) as [E | [E | E]];
      rewrite E in Hc; discriminate Hc. }
  split; [| split].
  - split; [| apply validateRequest_method].
    intros E. apply Hcode. by rewrite E.
  - split; [exact Hcode |].
    intros Hm. by rewrite (validateRequest_method r Hm).
  - intros Hn. apply validateRequest_codes; tauto.
Qed.

(** An OPTIONS request is never answered 415, whatever its size. *)
Lemma options_never_415 (r : Request) :
  Method r = MethodOptions -> (validateRequest r).1 <> StatusUnsupportedMediaType.
Proof.
  intros Ho. unfold validateRequest. rewrite Ho. cbn [bool_decide orb].
  replace (bool_decide (MethodOptions = MethodPut)) with false by reflexivity.
  replace (bool_decide (MethodOptions = MethodDelete)) with false by reflexivity.
  replace (bool_decide (MethodOptions = MethodOptions)) with true by reflexivity.
  cbn [orb negb andb].
  destruct (maxHTTPRequestContentLength <? ContentLength r); [intros E; discriminate E |].
  destruct (mime_ParseMediaType _) as [mt err]. intros E; discriminate E.
Qed.

(** C5: a GET request with declared content length 0 and an empty query
    string leaves the connection as it found it: no status, header or body
    is written, nothing is validated and the dispatcher is not called; the
    client of a fresh connection therefore receives an empty 200. *)
Theorem liveness_probe_untouched (srv : Server) (r : Request) (c : Conn) :
  Method r = MethodGet -> ContentLength r = 0 -> URL_RawQuery r = "" ->
  Server_ServeHTTP srv r c = c
  /\ served (Server_ServeHTTP srv r c) = served c
  /\ (conn_w c = emptyWriter ->
      sentStatus (conn_w (Server_ServeHTTP srv r c)) = StatusOK
      /\ rw_body (conn_w (Server_ServeHTTP srv r c)) = "").
Proof.
  intros Hm Hl Hq.
  assert (E : Server_ServeHTTP srv r c = c).
  { unfold Server_ServeHTTP. rewrite Hm, Hl, Hq. reflexivity. }
  rewrite E. split; [reflexivity | split; [reflexivity |]].
  intros ->. split; reflexivity.
Qed.

(** C7: a request that passes the method check and declares more than 131072
    bytes is answered 413; the message carries the declared and the maximum
    size; [Server.ServeHTTP] writes that error and hands nothing to the
    dispatcher. *)
Theorem oversized_rejected_413 (srv : Server) (r : Request) (c : Conn) :
  Method r <> MethodPut -> Method r <> MethodDelete ->
  131072 < ContentLength r ->
  let msg := "content length too large (" +:+ fmt_d (ContentLength r) +:+ ">131072)" in
  validateRequest r = (StatusRequestEntityTooLarge, Some msg)
  /\ Server_ServeHTTP srv r c = reply (fun w => http_Error w msg StatusRequestEntityTooLarge) c
  /\ served (Server_ServeHTTP srv r c) = served c
  /\ (rw_status (conn_w c) = None ->
      rw_status (conn_w (Server_ServeHTTP srv r c)) = Some 413).
Proof.
  intros Hp Hd Hl msg.
  assert (Ev : validateRequest r = (StatusRequestEntityTooLarge, Some msg)).
  { unfold validateRequest.
    rewrite !bool_decide_eq_false_2 by assumption. cbn [orb].
    replace (maxHTTPRequestContentLength <? ContentLength r) with true
      by (symmetry; apply Z.ltb_lt; exact Hl).
    reflexivity. }
  assert (Es : Server_ServeHTTP srv r c
               = reply (fun w => http_Error w msg StatusRequestEntityTooLarge) c).
  { unfold Server_ServeHTTP. rewrite Ev.
    replace (ContentLength r =? 0) with false by (symmetry; apply Z.eqb_neq; lia).
    rewrite andb_false_r. reflexivity. }
  split; [exact Ev | split; [exact Es | split]].
  - rewrite Es. reflexivity.
  - intros Hw. rewrite Es. unfold reply. cbn [conn_w].
    apply (http_Error_status (conn_w c) msg 413 Hw).
Qed.

(** C6: for a request that passes the method and size checks and is not an
    OPTIONS request, [validateRequest] answers 415 exactly when the
    content-type header does not parse or its media type is not
    application/json, and accepts otherwise; an OPTIONS request that passes
    the two checks is accepted whatever its content type; the body plays no
    part. *)
Theorem content_type_415_iff (r : Request) :
  Method r <> MethodPut -> Method r <> MethodDelete ->
  ContentLength r <= maxHTTPRequestContentLength ->
  let parsed := mime_ParseMediaType (Header_Get (ReqHeader r) "content-type") in
  let rejected := (StatusUnsupportedMediaType,
                   Some "invalid content type, only application/json is supported") in
  (Method r <> MethodOptions ->
     (validateRequest r = rejected <-> parsed.2 <> None \/ parsed.1 <> contentType)
     /\ ((validateRequest r).1 = StatusUnsupportedMediaType
         <-> parsed.2 <> None \/ parsed.1 <> contentType)
     /\ (parsed.2 = None -> parsed.1 = contentType -> validateRequest r = (0, None)))
  /\ (Method r = MethodOptions -> validateRequest r = (0, None))
  /\ (forall body : string,
        validateRequest {| Method := Method r; Host := Host r; RemoteAddr := RemoteAddr r;
                           ContentLength := ContentLength r;
                           URL_RawQuery := URL_RawQuery r; ReqHeader := ReqHeader r;
                           Body := body |} = validateRequest r).
Proof.
  intros Hp Hd Hl parsed rejected.
  assert (Ev : validateRequest r =
               if negb (bool_decide (Method r = MethodOptions))
                  && (negb (bool_decide (parsed.2 = None))
                      || negb (bool_decide (parsed.1 = contentType)))
               then rejected else (0, None)).
  { unfold validateRequest.
    rewrite !bool_decide_eq_false_2 by assumption. cbn [orb].
    replace (maxHTTPRequestContentLength <? ContentLength r) with false
      by (symmetry; apply Z.ltb_ge; exact Hl).
    subst parsed. destruct (mime_ParseMediaType _) as [mt err]. reflexivity. }
  split; [| split].
  - intros Ho. rewrite Ev.
    rewrite (bool_decide_eq_false_2 _ Ho). cbn [negb andb].
    destruct (bool_decide_reflect (parsed.2 = None)) as [He | He];
      destruct (bool_decide_reflect (parsed.1 = contentType)) as [Hc | Hc];
      cbn [negb orb]; (split; [| split]);
      try (split; [intros E; try discriminate E; tauto | intros _; reflexivity]);
      try (split; [intros E; discriminate E | intros [? | ?]; tauto]);
      try (intros; tauto); try reflexivity.
  - intros Ho. rewrite Ev. rewrite (bool_decide_eq_true_2 _ Ho). reflexivity.
  - intros body. reflexivity.
Qed.

End BaseHandler.

(** ** The identity resolver *)

Section Resolver.
Context {go : GoLib}.

Lemma march_step (addresses : list string) (i : nat) :
  march addresses (S i) =
  if qualifies (nth i addresses "")
  then Some (net_ParseIP (strings_TrimSpace (nth i addresses "")))
  else march addresses i.
Proof.
  unfold qualifies. cbn [march].
  destruct (isnil (net_ParseIP _)); cbn [negb andb]; [reflexivity |].
  destruct (IP_IsGlobalUnicast _); cbn [negb andb orb]; [| reflexivity].
  destruct (netutil_IsLAN _); cbn [negb andb orb]; [reflexivity |].
  destruct (netutil_IsSpecialNetwork _); reflexivity.
Qed.

Lemma march_none (addresses : list string) (n : nat) :
  (forall j, (j < n)%nat -> qualifies (nth j addresses "") = false) ->
  march addresses n = None.
Proof.
  induction n as [| n IH]; intros Hno; [reflexivity |].
  rewrite march_step, (Hno n) by lia.
  apply IH. intros j Hj. apply Hno. lia.
Qed.



(** X6: when no entry of either header qualifies, the transport address is used. *)
Lemma getIP_no_public_entry (r : Request) :
  (forall h e, h ∈ ["X-Forwarded-For"; "X-Real-Ip"] ->
               e ∈ strings_Split (Header_Get (ReqHeader r) h) "," -> qualifies e = false) ->
  getIP r true = net_ParseIP (remoteHost (RemoteAddr r)).
Proof.
  intros Hno.
  assert (Hm : forall h, h ∈ ["X-Forwarded-For"; "X-Real-Ip"] ->
               let a := strings_Split (Header_Get (ReqHeader r) h) "," in
               march a (length a) = None).
  { intros h Hh a. apply march_none. intros j Hj.
    destruct (lookup_lt_is_Some_2 a j Hj) as [e He].
    rewrite (nth_lookup_Some _ _ "" _ He).
    apply (Hno h e Hh). eapply list_elem_of_lookup_2. exact He. }
  unfold getIP. cbn [forwarded].
  rewrite (Hm "X-Forwarded-For"), (Hm "X-Real-Ip")
    by (rewrite !elem_of_cons; tauto).
  reflexivity.
Qed.

(** C3: with trust disabled, two requests with the same remote address get
    the same identity whatever their headers are, namely the parsed host
    portion of that address. *)
Theorem getIP_untrusted_ignores_headers (r1 r2 : Request) :
  RemoteAddr r1 = RemoteAddr r2 ->
  getIP r1 false = getIP r2 false
  /\ getIP r1 false = net_ParseIP (remoteHost (RemoteAddr r1)).
Proof.
  intros Ha. unfold getIP, remoteHost. rewrite Ha. split; reflexivity.
Qed.

End Resolver.

(** ** The gates and their composition *)

Section Gates.
Context {go : GoLib}.

(** C9: with no allowed origin, [newCorsHandler] returns the server itself,
    not a wrapper, and serving through the result is serving through the
    server. *)
Theorem newCorsHandler_empty_is_server (srv : Server) (allowedOrigins : list string) :
  length allowedOrigins = 0%nat ->
  newCorsHandler srv allowedOrigins = ServerHandler srv
  /\ ServeHTTP (newCorsHandler srv allowedOrigins) = Server_ServeHTTP srv.
Proof.
  intros Hlen. unfold newCorsHandler.
  rewrite (bool_decide_eq_true_2 _ Hlen). split; reflexivity.
Qed.

Lemma newCorsHandler_wraps (srv : Server) (allowedOrigins : list string) :
  length allowedOrigins <> 0%nat ->
  exists o, newCorsHandler srv allowedOrigins = corsHandler o (ServerHandler srv)
            /\ AllowedOrigins o = allowedOrigins.
Proof.
  intros Hlen. unfold newCorsHandler.
  rewrite (bool_decide_eq_false_2 _ Hlen). eexists. split; reflexivity.
Qed.

(** C4: the gate built from an empty pattern list answers every request
    with 403 and an empty message; the next handler has no part in the
    result, and nothing reaches the dispatcher. *)
Theorem empty_allowlist_denies_all (behind : bool) (next : Handler) (r : Request) (c : Conn) :
  exists h,
    newAllowIPHandler [] behind next = Some h
    /\ ServeHTTP h r c = forbidden "" c
    /\ served (ServeHTTP h r c) = served c
    /\ (rw_status (conn_w c) = None ->
        rw_status (conn_w (ServeHTTP h r c)) = Some 403).
Proof.
  exists (allowIPHandler [] next behind).
  split; [reflexivity |].
  assert (E : ServeHTTP (allowIPHandler [] next behind) r c = forbidden "" c) by reflexivity.
  rewrite E. split; [reflexivity | split; [reflexivity |]].
  intros Hw. unfold forbidden, reply. cbn [conn_w].
  apply (http_Error_status (conn_w c) "" 403 Hw).
Qed.

(** C10: in the composed server the allow-list gate comes first: a GET with
    no body and no query whose resolved identity matches no pattern is
    answered 403, although the base handler alone would have left the
    connection untouched. *)
Theorem allowlist_precedes_liveness_probe
    (cors vhosts allowIP : list string) (behind : bool) (srv : Server)
    (allowed : Netlist) (r : Request) (c : Conn) :
  addAll [] allowIP = Some allowed ->
  Netlist_Contains allowed (getIP r behind) = false ->
  Method r = MethodGet -> ContentLength r = 0 -> URL_RawQuery r = "" ->
  exists h,
    NewHTTPServer cors vhosts allowIP behind srv = Some h
    /\ ServeHTTP h r c = forbidden "" c
    /\ (rw_status (conn_w c) = None ->
        rw_status (conn_w (ServeHTTP h r c)) = Some 403)
    /\ Server_ServeHTTP srv r c = c.
Proof.
  intros Hadd Hout Hm Hl Hq.
  unfold NewHTTPServer, newAllowIPHandler. rewrite Hadd.
  eexists. split; [reflexivity |].
  assert (E : forall next, ServeHTTP (allowIPHandler allowed next behind) r c = forbidden "" c).
  { intros next. cbn [ServeHTTP]. unfold allowIPHandler_ServeHTTP. by rewrite Hout. }
  rewrite E. split; [reflexivity | split].
  - intros Hw. unfold forbidden, reply. cbn [conn_w].
    apply (http_Error_status (conn_w c) "" 403 Hw).
  - unfold Server_ServeHTTP. rewrite Hm, Hl, Hq. reflexivity.
Qed.

Lemma vhostMap_elem_of (vhosts : list string) (acc : gset string) (x : string) :
  x ∈ foldl (fun m allowedHost => {[strings_ToLower allowedHost]} ∪ m) acc vhosts
  <-> x ∈ acc \/ x ∈ strings_ToLower <$> vhosts.
Proof.
  revert acc. induction vhosts as [| v vs IH]; intros acc; cbn [foldl].
  - rewrite fmap_nil, elem_of_nil. tauto.
  - rewrite IH, elem_of_union, elem_of_singleton, fmap_cons, elem_of_cons. tauto.
Qed.

(** What the virtual-host gate does with a host name: the whitelist is
    lower-cased when the gate is built, the host of the request is looked up
    as it was sent. *)
Lemma vhost_gate_decision (vhosts : list string) (next : Handler) (r : Request) (c : Conn) :
  Host r <> "" ->
  net_ParseIP (hostOnly (Host r)) = [] ->
  ServeHTTP (newVHostHandler vhosts next) r c =
  if bool_decide ("*" ∈ strings_ToLower <$> vhosts
                  \/ hostOnly (Host r) ∈ strings_ToLower <$> vhosts)
  then ServeHTTP next r c
  else forbidden "invalid host specified" c.
Proof.
  intros Hhost Hip. unfold newVHostHandler. cbn [ServeHTTP].
  unfold virtualHostHandler_ServeHTTP. fold (hostOnly (Host r)).
  rewrite (bool_decide_eq_false_2 _ Hhost), Hip. cbn [isnil negb].
  set (m := foldl _ _ vhosts).
  assert (Hm : forall x, x ∈ m <-> x ∈ strings_ToLower <$> vhosts).
  { intros x. unfold m. rewrite vhostMap_elem_of, elem_of_empty. tauto. }
  destruct (bool_decide_reflect ("*" ∈ m)) as [Hs | Hs].
  - rewrite bool_decide_eq_true_2; [reflexivity | left; by apply Hm].
  - destruct (bool_decide_reflect (hostOnly (Host r) ∈ m)) as [Hh | Hh].
    + rewrite bool_decide_eq_true_2; [reflexivity | right; by apply Hm].
    + rewrite bool_decide_eq_false_2; [reflexivity |].
      intros [Hx | Hx]; [apply Hs | apply Hh]; by apply Hm.
Qed.

End Gates.

(** ** The pipeline on concrete requests, over [GoASCII] *)

(** The probe would not pass validation, yet the base handler leaves the
    connection untouched. *)
Lemma liveness_probe_witness :
  (validateRequest probe).1 = StatusUnsupportedMediaType
  /\ Server_ServeHTTP echoServer probe freshConn = freshConn
  /\ sentStatus (conn_w (Server_ServeHTTP echoServer probe freshConn)) = 200.
Proof.
  split; [reflexivity |].
  destruct (liveness_probe_untouched echoServer probe freshConn) as (E & _ & Hfresh);
    [reflexivity | reflexivity | reflexivity |].
  split; [exact E | exact (proj1 (Hfresh eq_refl))].
Defined.

(** One byte over the cap. *)
Lemma oversized_witness :
  let r := mkRequest "POST" "node.example" "10.0.0.9:51000" 131073
                     [("Content-Type", "application/json")] "{}" in
  validateRequest r = (413, Some "content length too large (131073>131072)")
  /\ rw_status (conn_w (Server_ServeHTTP echoServer r freshConn)) = Some 413
  /\ served (Server_ServeHTTP echoServer r freshConn) = [].
Proof.
  intros r.
  destruct (oversized_rejected_413 echoServer r freshConn) as (Ev & _ & Hs & Hst).
  - compute_done.
  - compute_done.
  - reflexivity.
  - split; [exact Ev | split; [exact (Hst eq_refl) | exact Hs]].
Defined.

(** A POST of valid JSON labelled text/plain. *)
Lemma text_plain_witness :
  let r := mkRequest "POST" "node.example" "10.0.0.9:51000" 2
                     [("Content-Type", "text/plain")] "{}" in
  mime_ParseMediaType (Header_Get (ReqHeader r) "content-type") = ("text/plain", None)
  /\ validateRequest r
     = (415, Some "invalid content type, only application/json is supported").
Proof.
  intros r. split; [reflexivity |].
  destruct (content_type_415_iff r) as (Hpost & _ & _).
  - compute_done.
  - compute_done.
  - compute_done.
  - destruct Hpost as ((_ & Hrej) & _ & _).
    + compute_done.
    + apply Hrej. right. compute_done.
Defined.

Lemma newCorsHandler_empty_witness :
  newCorsHandler echoServer [] = ServerHandler echoServer
  /\ ServeHTTP (newCorsHandler echoServer []) = Server_ServeHTTP echoServer.
Proof. apply (newCorsHandler_empty_is_server echoServer []). reflexivity. Defined.

(** The probe comes from 10.0.0.9; only 192.168.0.0/16 is allowed. *)
Lemma allowlist_precedes_witness :
  exists h,
    NewHTTPServer [] ["localhost"] ["192.168.0.0/16"] false echoServer = Some h
    /\ ServeHTTP h probe freshConn = forbidden "" freshConn
    /\ (rw_status (conn_w freshConn) = None ->
        rw_status (conn_w (ServeHTTP h probe freshConn)) = Some 403)
    /\ Server_ServeHTTP echoServer probe freshConn = freshConn.
Proof.
  eapply (allowlist_precedes_liveness_probe [] ["localhost"] ["192.168.0.0/16"]
            false echoServer _ probe freshConn);
    [vm_compute; reflexivity | reflexivity | reflexivity | reflexivity | reflexivity].
Defined.

(** Same peer, different forwarding headers. *)
Lemma getIP_untrusted_witness :
  let r1 := proxied "203.0.113.7" "198.51.100.4:1234" in
  let r2 := mkRequest "POST" "node.example" "198.51.100.4:1234" 2
                      [("X-Forwarded-For", "8.8.8.8"); ("X-Real-Ip", "1.1.1.1")] "{}" in
  getIP r1 false = getIP r2 false
  /\ getIP r1 false = net_ParseIP "198.51.100.4".
Proof.
  intros r1 r2.
  destruct (getIP_untrusted_ignores_headers r1 r2 eq_refl) as [Esame Ehost].
  split; [exact Esame | exact Ehost].
Defined.



(** C1, at the input where the code departs from it: the whitelist is
    lower-cased but the host of the request is not, so a host that differs
    from its whitelist entry in letter case only is turned away with 403,
    even when it is spelled exactly as the entry was configured; only the
    lower-case spelling is let through. *)
Theorem vhost_mixed_case_rejected (next : Handler) (c : Conn) :
  let r (host : string) := mkRequest "POST" host "10.0.0.9:51000" 2
                             [("Content-Type", "application/json")] "{}" in
  ServeHTTP (newVHostHandler ["example.com"] next) (r "Example.COM:8545") c
  = forbidden "invalid host specified" c
  /\ ServeHTTP (newVHostHandler ["Example.com"] next) (r "Example.com") c
     = forbidden "invalid host specified" c
  /\ ServeHTTP (newVHostHandler ["Example.com"] next) (r "example.com") c
     = ServeHTTP next (r "example.com") c.
Proof.
  intros r.
  repeat split; (rewrite vhost_gate_decision;
    [reflexivity | intros E; discriminate E | reflexivity]).
Qed.

(** * Further properties of http.go *)

(** ** The virtual-host gate *)

Section VHostGate.
Context {go : GoLib}.

Lemma vhost_gate_unfold (vhosts : list string) (next : Handler) :
  ServeHTTP (newVHostHandler vhosts next)
  = virtualHostHandler_ServeHTTP
      (foldl (fun m allowedHost => {[strings_ToLower allowedHost]} ∪ m) ∅ vhosts)
      (ServeHTTP next).
Proof. reflexivity. Qed.

(** X1: a request without a Host value, or whose Host is a literal IP address
    once the port is stripped, goes to the next handler whatever the
    whitelist holds, the empty whitelist included. *)
Theorem vhost_gate_bypass (vhosts : list string) (next : Handler) (r : Request) (c : Conn) :
  Host r = "" \/ net_ParseIP (hostOnly (Host r)) <> [] ->
  ServeHTTP (newVHostHandler vhosts next) r c = ServeHTTP next r c.
Proof.
  intros Hby. rewrite vhost_gate_unfold. unfold virtualHostHandler_ServeHTTP.
  fold (hostOnly (Host r)).
  destruct (bool_decide_reflect (Host r = "")) as [_ | Hne]; [reflexivity |].
  destruct Hby as [He | Hip]; [contradiction |].
  destruct (net_ParseIP (hostOnly (Host r))) as [| b ip]; [contradiction | reflexivity].
Qed.

(** X2: with the wildcard entry in the whitelist every request goes to the next
    handler. *)
Theorem vhost_gate_wildcard (vhosts : list string) (next : Handler) (r : Request) (c : Conn) :
  strings_ToLower "*" = "*" ->
  "*" ∈ vhosts ->
  ServeHTTP (newVHostHandler vhosts next) r c = ServeHTTP next r c.
Proof.
  intros Hstar Hin. rewrite vhost_gate_unfold. unfold virtualHostHandler_ServeHTTP.
  destruct (bool_decide (Host r = "")); [reflexivity |].
  destruct (negb _); [reflexivity |].
  rewrite bool_decide_eq_true_2; [reflexivity |].
  apply vhostMap_elem_of. right. rewrite <- Hstar at 1.
  by apply list_elem_of_fmap_2.
Qed.

(** X3: a host name that the lower-cased whitelist does not hold, with no
    wildcard configured, is answered 403 "invalid host specified"; the next
    handler and the dispatcher have no part in it. *)
Theorem vhost_gate_unlisted_forbidden (vhosts : list string) (next : Handler)
    (r : Request) (c : Conn) :
  Host r <> "" ->
  net_ParseIP (hostOnly (Host r)) = [] ->
  "*" ∉ strings_ToLower <$> vhosts ->
  hostOnly (Host r) ∉ strings_ToLower <$> vhosts ->
  ServeHTTP (newVHostHandler vhosts next) r c = forbidden "invalid host specified" c
  /\ served (ServeHTTP (newVHostHandler vhosts next) r c) = served c
  /\ (rw_status (conn_w c) = None ->
      rw_status (conn_w (ServeHTTP (newVHostHandler vhosts next) r c)) = Some 403).
Proof.
  intros Hhost Hip Hstar Hname.
  assert (E : ServeHTTP (newVHostHandler vhosts next) r c
              = forbidden "invalid host specified" c).
  { rewrite (vhost_gate_decision vhosts next r c Hhost Hip).
    rewrite bool_decide_eq_false_2; [reflexivity | tauto]. }
  rewrite E. split; [reflexivity | split; [reflexivity |]].
  intros Hw. unfold forbidden, reply. cbn [conn_w].
  apply (http_Error_status (conn_w c) "invalid host specified" 403 Hw).
Qed.

(** X4: a request whose host, port stripped, is the lower-case form of a
    whitelist entry goes to the next handler, however the entry was spelled
    in the configuration. *)
Theorem vhost_gate_listed_delegates (vhosts : list string) (next : Handler)
    (v : string) (r : Request) (c : Conn) :
  v ∈ vhosts ->
  hostOnly (Host r) = strings_ToLower v ->
  ServeHTTP (newVHostHandler vhosts next) r c = ServeHTTP next r c.
Proof.
  intros Hin Hlow. rewrite vhost_gate_unfold. unfold virtualHostHandler_ServeHTTP.
  fold (hostOnly (Host r)).
  destruct (bool_decide (Host r = "")); [reflexivity |].
  destruct (negb _); [reflexivity |].
  destruct (bool_decide ("*" ∈ _)); [reflexivity |].
  rewrite bool_decide_eq_true_2; [reflexivity |].
  apply vhostMap_elem_of. right. rewrite Hlow. by apply list_elem_of_fmap_2.
Qed.

(** X5: the lookup is by the host as it was sent: a host name that its own
    lower-casing changes is in no whitelist, and is answered 403 unless the
    wildcard is configured. *)
Theorem vhost_gate_mixed_case_never_listed (vhosts : list string) (next : Handler)
    (r : Request) (c : Conn) :
  (forall s, strings_ToLower (strings_ToLower s) = strings_ToLower s) ->
  Host r <> "" ->
  net_ParseIP (hostOnly (Host r)) = [] ->
  strings_ToLower (hostOnly (Host r)) <> hostOnly (Host r) ->
  "*" ∉ strings_ToLower <$> vhosts ->
  ServeHTTP (newVHostHandler vhosts next) r c = forbidden "invalid host specified" c.
Proof.
  intros Hidem Hhost Hip Hmixed Hstar.
  rewrite (vhost_gate_decision vhosts next r c Hhost Hip).
  rewrite bool_decide_eq_false_2; [reflexivity |].
  intros [Hs | Hin]; [contradiction |].
  apply list_elem_of_fmap in Hin as (v & Hv & _).
  apply Hmixed. rewrite Hv. apply Hidem.
Qed.

End VHostGate.

(** ** The identity resolver *)

Section ResolverMore.
Context {go : GoLib}.

Lemma march_some_inv (addresses : list string) (n : nat) (ip : IP) :
  march addresses n = Some ip ->
  exists i, (i < n)%nat /\ qualifies (nth i addresses "") = true
            /\ ip = net_ParseIP (strings_TrimSpace (nth i addresses "")).
Proof.
  induction n as [| n IH]; intros Hm; [discriminate Hm |].
  rewrite march_step in Hm.
  destruct (qualifies (nth n addresses "")) eqn:Hq.
  - injection Hm as <-. exists n. split; [lia | split; [exact Hq | reflexivity]].
  - destruct (IH Hm) as (i & Hi & Hqi & Hip).
    exists i. split; [lia | split; [exact Hqi | exact Hip]].
Qed.




(** X8: whatever the headers say, the identity resolved under trust is either
    the transport address or an entry of one of the two headers that
    qualifies: a parsed, global-unicast address outside the private and the
    special-use networks.  No header can make the resolver return a private
    or reserved address that is not the peer's own. *)
Theorem getIP_trusted_result (r : Request) :
  getIP r true = net_ParseIP (remoteHost (RemoteAddr r))
  \/ (exists h e,
        h ∈ ["X-Forwarded-For"; "X-Real-Ip"]
        /\ e ∈ strings_Split (Header_Get (ReqHeader r) h) ","
        /\ qualifies e = true
        /\ getIP r true = net_ParseIP (strings_TrimSpace e))
     /\ getIP r true <> []
     /\ IP_IsGlobalUnicast (getIP r true) = true
     /\ netutil_IsLAN (getIP r true) = false
     /\ netutil_IsSpecialNetwork (getIP r true) = false.
Proof.
  assert (Hfrom : forall h ip,
            h ∈ ["X-Forwarded-For"; "X-Real-Ip"] ->
            let a := strings_Split (Header_Get (ReqHeader r) h) "," in
            march a (length a) = Some ip ->
            (exists h e,
               h ∈ ["X-Forwarded-For"; "X-Real-Ip"]
               /\ e ∈ strings_Split (Header_Get (ReqHeader r) h) ","
               /\ qualifies e = true /\ ip = net_ParseIP (strings_TrimSpace e))
            /\ ip <> [] /\ IP_IsGlobalUnicast ip = true
            /\ netutil_IsLAN ip = false /\ netutil_IsSpecialNetwork ip = false).
  { intros h ip Hh a Hm.
    destruct (march_some_inv a (length a) ip Hm) as (i & Hi & Hq & ->).
    destruct (lookup_lt_is_Some_2 a i Hi) as [e He].
    rewrite (nth_lookup_Some _ _ "" _ He) in *.
    split.
    - exists h, e. split; [exact Hh | split; [| split; [exact Hq | reflexivity]]].
      eapply list_elem_of_lookup_2. exact He.
    - unfold qualifies in Hq.
      destruct (net_ParseIP (strings_TrimSpace e)) as [| b ip]; [discriminate Hq |].
      cbn [isnil negb andb] in Hq.
      destruct (IP_IsGlobalUnicast _); [| discriminate Hq].
      destruct (netutil_IsLAN _); [discriminate Hq |].
      destruct (netutil_IsSpecialNetwork _); [discriminate Hq |].
      repeat split; discriminate. }
  unfold getIP. cbn [forwarded].
  destruct (march _ _) as [ip |] eqn:Hx.
  - right. apply (Hfrom "X-Forwarded-For" ip); [rewrite !elem_of_cons; tauto | exact Hx].
  - destruct (march (strings_Split (Header_Get (ReqHeader r) "X-Real-Ip") ",") _)
      as [ip |] eqn:Hr.
    + right. apply (Hfrom "X-Real-Ip" ip); [rewrite !elem_of_cons; tauto | exact Hr].
    + left. reflexivity.
Qed.

End ResolverMore.

(** ** The base handler *)

Lemma substring0_length (n : nat) (s : string) :
  String.length (String.substring 0 n s) = Nat.min n (String.length s).
Proof.
  revert n. induction s as [| a s IH]; intros [| n]; cbn; try reflexivity.
  by rewrite IH.
Qed.

Lemma substring0_prefix (n : nat) (s : string) :
  String.prefix (String.substring 0 n s) s = true.
Proof.
  revert n. induction s as [| a s IH]; intros [| n]; cbn; try reflexivity.
  destruct (ascii_dec a a) as [_ | Hne]; [apply IH | contradiction].
Qed.

Lemma substring0_whole (n : nat) (s : string) :
  (String.length s <= n)%nat -> String.substring 0 n s = s.
Proof.
  revert n. induction s as [| a s IH]; intros [| n] Hlen; cbn in *;
    try reflexivity; try lia.
  rewrite IH by lia. reflexivity.
Qed.

Lemma LimitReader_spec (body : string) (n : Z) :
  0 <= n ->
  Z.of_nat (String.length (io_LimitReader body n)) <= n
  /\ String.prefix (io_LimitReader body n) body = true
  /\ (Z.of_nat (String.length body) <= n -> io_LimitReader body n = body).
Proof.
  intros Hn. unfold io_LimitReader.
  generalize (Z2Nat.id n Hn). generalize (Z.to_nat n) as k. intros k Hk.
  split; [| split].
  - rewrite substring0_length. lia.
  - apply substring0_prefix.
  - intros Hlen. apply substring0_whole. lia.
Qed.

Section BaseHandlerMore.
Context {go : GoLib}.

(** X9: the code and the error of [validateRequest] go together, as its comment
    says: the error is nil exactly when the code is 0, and the code is one of
    0, 405, 413 and 415. *)
Theorem validateRequest_code_and_error (r : Request) :
  ((validateRequest r).1 = 0 <-> (validateRequest r).2 = None)
  /\ ((validateRequest r).1 = 0 \/ (validateRequest r).1 = 405
      \/ (validateRequest r).1 = 413 \/ (validateRequest r).1 = 415).
Proof.
  unfold validateRequest.
  destruct (bool_decide _ || bool_decide _).
  { split; [split; intros E; discriminate E | tauto]. }
  destruct (maxHTTPRequestContentLength <? ContentLength r).
  { split; [split; intros E; discriminate E | tauto]. }
  destruct (mime_ParseMediaType _) as [mt err].
  destruct (negb _ && _).
  - split; [split; intros E; discriminate E | tauto].
  - split; [split; reflexivity | tauto].
Qed.

(** X10: the requests that [validateRequest] accepts: the method is neither PUT
    nor DELETE, the declared length is at most 131072 (an unknown length, -1,
    passes), and either the method is OPTIONS or the content type parses to
    application/json. *)
Theorem validateRequest_accepts_iff (r : Request) :
  let parsed := mime_ParseMediaType (Header_Get (ReqHeader r) "content-type") in
  validateRequest r = (0, None)
  <-> Method r <> MethodPut /\ Method r <> MethodDelete
      /\ ContentLength r <= 131072
      /\ (Method r = MethodOptions \/ (parsed.2 = None /\ parsed.1 = contentType)).
Proof.
  intros parsed. unfold validateRequest. fold parsed.
  destruct (bool_decide_reflect (Method r = MethodPut)) as [Hp | Hp]; cbn [orb].
  { split; [intros E; discriminate E | tauto]. }
  destruct (bool_decide_reflect (Method r = MethodDelete)) as [Hd | Hd].
  { split; [intros E; discriminate E | tauto]. }
  destruct (Z.ltb_spec maxHTTPRequestContentLength (ContentLength r)) as [Hl | Hl];
    unfold maxHTTPRequestContentLength in Hl.
  { split; [intros E; discriminate E | lia]. }
  destruct parsed as [mt err]. cbn [fst snd].
  destruct (bool_decide_reflect (Method r = MethodOptions)) as [Ho | Ho]; cbn [negb andb].
  { split; [intros _ | reflexivity]. repeat split; auto; lia. }
  destruct (bool_decide_reflect (err = None)) as [He | He]; cbn [negb orb].
  - destruct (bool_decide_reflect (mt = contentType)) as [Hc | Hc]; cbn [negb].
    + split; [intros _ | reflexivity]. repeat split; auto; lia.
    + split; [intros E; discriminate E | tauto].
  - split; [intros E; discriminate E | tauto].
Qed.

Lemma Server_ServeHTTP_cases (srv : Server) (r : Request) (c : Conn) :
  (Method r = MethodGet /\ ContentLength r = 0 /\ URL_RawQuery r = ""
   /\ Server_ServeHTTP srv r c = c)
  \/ (~ (Method r = MethodGet /\ ContentLength r = 0 /\ URL_RawQuery r = "")
      /\ ((exists code err, validateRequest r = (code, Some err)
             /\ Server_ServeHTTP srv r c = reply (fun w => http_Error w err code) c)
          \/ ((validateRequest r).2 = None
              /\ Server_ServeHTTP srv r c =
                 let body := io_LimitReader (Body r) maxHTTPRequestContentLength in
                 {| conn_w := ServeSingleRequest srv body
                                (setHeader "content-type" contentType (conn_w c));
                    served := served c ++ [body] |}))).
Proof.
  unfold Server_ServeHTTP.
  destruct (bool_decide_reflect (Method r = MethodGet)) as [Hm | Hm]; cbn [andb];
    [| right; split; [tauto |]].
  - destruct (Z.eqb_spec (ContentLength r) 0) as [Hl | Hl]; cbn [andb];
      [| right; split; [tauto |]].
    + destruct (bool_decide_reflect (URL_RawQuery r = "")) as [Hq | Hq];
        [left; tauto | right; split; [tauto |]].
      destruct (validateRequest r) as [code [err |]]; [left; eauto | right; eauto].
    + destruct (validateRequest r) as [code [err |]]; [left; eauto | right; eauto].
  - destruct (validateRequest r) as [code [err |]]; [left; eauto | right; eauto].
Qed.

(** X11: the dispatcher is called exactly for the requests that are no liveness
    probe and pass validation, and then once: every rejected request and
    every probe leaves the list of dispatched bodies as it was. *)
Theorem dispatched_iff_admitted (srv : Server) (r : Request) (c : Conn) :
  let probe := Method r = MethodGet /\ ContentLength r = 0 /\ URL_RawQuery r = "" in
  (served (Server_ServeHTTP srv r c) <> served c
   <-> ~ probe /\ (validateRequest r).2 = None)
  /\ (served (Server_ServeHTTP srv r c) = served c
      \/ served (Server_ServeHTTP srv r c)
         = served c ++ [io_LimitReader (Body r) maxHTTPRequestContentLength]).
Proof.
  intros probe.
  assert (Hgrow : forall b : string, served c ++ [b] <> served c).
  { intros b E. apply (f_equal length) in E. rewrite length_app in E. cbn in E. lia. }
  destruct (Server_ServeHTTP_cases srv r c)
    as [(Hm & Hl & Hq & E) | (Hnp & [(code & err & Ev & E) | (Ev & E)])]; rewrite E.
  - split; [| left; reflexivity].
    split; [intros Hne; contradiction | intros [Hnp _]; exfalso; apply Hnp; repeat split; assumption].
  - split; [| left; reflexivity]. cbn [reply served].
    split; [intros Hne; contradiction | intros [_ Hv]; rewrite Ev in Hv; discriminate Hv].
  - split; [| right; reflexivity]. cbn [served].
    split; [intros _; split; assumption | intros _; apply Hgrow].
Qed.

(** X12: what the dispatcher is given for an admitted request: a prefix of the
    body of at most 131072 bytes, whatever length the request declared, the
    whole body when it is that short; and a response writer whose
    content-type is already set. *)
Theorem dispatched_body_capped (srv : Server) (r : Request) (c : Conn) :
  ~ (Method r = MethodGet /\ ContentLength r = 0 /\ URL_RawQuery r = "") ->
  (validateRequest r).2 = None ->
  exists body,
    Server_ServeHTTP srv r c
    = {| conn_w := ServeSingleRequest srv body
                     (setHeader "content-type" "application/json" (conn_w c));
         served := served c ++ [body] |}
    /\ Z.of_nat (String.length body) <= 131072
    /\ String.prefix body (Body r) = true
    /\ (Z.of_nat (String.length (Body r)) <= 131072 -> body = Body r).
Proof.
  intros Hnp Hv.
  exists (io_LimitReader (Body r) maxHTTPRequestContentLength).
  split.
  - destruct (Server_ServeHTTP_cases srv r c)
      as [(Hm & Hl & Hq & _) | (_ & [(code & err & Ev & _) | (_ & E)])].
    + exfalso. apply Hnp. repeat split; assumption.
    + rewrite Ev in Hv. discriminate Hv.
    + exact E.
  - apply (LimitReader_spec (Body r) maxHTTPRequestContentLength).
    unfold maxHTTPRequestContentLength. lia.
Qed.

End BaseHandlerMore.

(** ** The composed server *)

Section Composition.
Context {go : GoLib}.

Lemma NewHTTPServer_unfold (cors vhosts allowIP : list string) (behind : bool)
    (srv : Server) (allowed : Netlist) :
  addAll [] allowIP = Some allowed ->
  NewHTTPServer cors vhosts allowIP behind srv
  = Some (allowIPHandler allowed (newVHostHandler vhosts (newCorsHandler srv cors)) behind).
Proof.
  intros Hadd. unfold NewHTTPServer, newAllowIPHandler. rewrite Hadd. reflexivity.
Qed.

(** X13: the order of the gates: a request that the allow-list lets in but whose
    host name is not whitelisted is answered 403 "invalid host specified" by
    the second gate; neither the CORS layer nor the base handler sees it,
    a liveness probe included. *)
Theorem composed_host_rejected_before_base
    (cors vhosts allowIP : list string) (behind : bool) (srv : Server)
    (allowed : Netlist) (r : Request) (c : Conn) :
  addAll [] allowIP = Some allowed ->
  Netlist_Contains allowed (getIP r behind) = true ->
  Host r <> "" ->
  net_ParseIP (hostOnly (Host r)) = [] ->
  "*" ∉ strings_ToLower <$> vhosts ->
  hostOnly (Host r) ∉ strings_ToLower <$> vhosts ->
  exists h,
    NewHTTPServer cors vhosts allowIP behind srv = Some h
    /\ ServeHTTP h r c = forbidden "invalid host specified" c
    /\ served (ServeHTTP h r c) = served c.
Proof.
  intros Hadd Hin Hhost Hip Hstar Hname.
  eexists. split; [apply (NewHTTPServer_unfold _ _ _ _ _ _ Hadd) |].
  assert (E : ServeHTTP (allowIPHandler allowed
                (newVHostHandler vhosts (newCorsHandler srv cors)) behind) r c
              = forbidden "invalid host specified" c).
  { cbn [ServeHTTP]. unfold allowIPHandler_ServeHTTP. rewrite Hin.
    change (virtualHostHandler_ServeHTTP _ _ r c)
      with (ServeHTTP (newVHostHandler vhosts (newCorsHandler srv cors)) r c).
    rewrite (vhost_gate_decision vhosts _ r c Hhost Hip).
    rewrite bool_decide_eq_false_2; [reflexivity | tauto]. }
  rewrite E. split; reflexivity.
Qed.

(** X14: without CORS origins, a request that passes both gates is served by the
    base handler and by nothing else: the composed server answers exactly as
    [Server.ServeHTTP] does. *)
Theorem composed_passes_to_base
    (vhosts allowIP : list string) (behind : bool) (srv : Server)
    (allowed : Netlist) (r : Request) (c : Conn) :
  addAll [] allowIP = Some allowed ->
  Netlist_Contains allowed (getIP r behind) = true ->
  Host r = "" \/ net_ParseIP (hostOnly (Host r)) <> []
  \/ "*" ∈ strings_ToLower <$> vhosts
  \/ hostOnly (Host r) ∈ strings_ToLower <$> vhosts ->
  exists h,
    NewHTTPServer [] vhosts allowIP behind srv = Some h
    /\ ServeHTTP h r c = Server_ServeHTTP srv r c.
Proof.
  intros Hadd Hin Hpass.
  eexists. split; [apply (NewHTTPServer_unfold _ _ _ _ _ _ Hadd) |].
  cbn [ServeHTTP]. unfold allowIPHandler_ServeHTTP. rewrite Hin.
  change (ServeHTTP (newVHostHandler vhosts (newCorsHandler srv [])) r c
          = Server_ServeHTTP srv r c).
  rewrite vhost_gate_unfold.
  unfold virtualHostHandler_ServeHTTP. fold (hostOnly (Host r)).
  change (ServeHTTP (newCorsHandler srv [])) with (Server_ServeHTTP srv).
  destruct (bool_decide_reflect (Host r = "")) as [He | He]; [reflexivity |].
  destruct (net_ParseIP (hostOnly (Host r))) as [| b ip] eqn:Hip; [| reflexivity].
  cbn [isnil negb].
  set (m := foldl _ _ vhosts).
  assert (Hm : forall x, x ∈ strings_ToLower <$> vhosts -> x ∈ m).
  { intros x Hx. unfold m. apply vhostMap_elem_of. by right. }
  destruct (bool_decide_reflect ("*" ∈ m)) as [Hs | Hs]; [reflexivity |].
  destruct (bool_decide_reflect (hostOnly (Host r) ∈ m)) as [Hh | Hh]; [reflexivity |].
  destruct Hpass as [H1 | [H2 | [H3 | H4]]];
    [contradiction | contradiction | exfalso; apply Hs; by apply Hm
    | exfalso; apply Hh; by apply Hm].
Qed.

End Composition.

(** * Properties of build/ci.go *)

Lemma str_append_assoc (a b c : string) : (a +:+ b) +:+ c = a +:+ b +:+ c.
Proof.
  induction a as [| x a IH]; [reflexivity |].
  change (String x ((a +:+ b) +:+ c) = String x (a +:+ b +:+ c)). by rewrite IH.
Qed.

Lemma str_append_cancel (s t : string) : s +:+ t = s -> t = "".
Proof.
  induction s as [| x s IH]; intros E; [exact E |].
  change (String x (s +:+ t) = String x s) in E.
  injection E as E. by apply IH.
Qed.

Lemma isUnstableBuild_iff (env : Environment) : isUnstableBuild env = true <-> Tag env = "".
Proof.
  unfold isUnstableBuild.
  destruct (bool_decide_reflect (Tag env = "")); cbn [negb]; split; intros E;
    try reflexivity; try assumption; try discriminate E; contradiction.
Qed.

(** X15: [archiveVersion] slices the first 8 bytes off the commit: it fails with a
    slice out of range exactly when the commit is set and shorter than 8
    bytes, and [archiveBasename] fails with it; a commit of 8 bytes or more
    contributes a dash and exactly its first 8 bytes. *)
Theorem archiveVersion_commit_bounds (VERSION : string) (env : Environment) :
  (archiveVersion VERSION env = None <-> (0 < String.length (Commit env) < 8)%nat)
  /\ (forall GOOS osenv arch,
        archiveBasename VERSION GOOS osenv arch env = None
        <-> (0 < String.length (Commit env) < 8)%nat)
  /\ (Commit env = "" ->
      archiveVersion VERSION env
      = Some (if bool_decide (Tag env = "") then VERSION +:+ "-unstable" else VERSION))
  /\ ((8 <= String.length (Commit env))%nat ->
      archiveVersion VERSION env
      = Some ((if bool_decide (Tag env = "") then VERSION +:+ "-unstable" else VERSION)
              +:+ "-" +:+ String.substring 0 8 (Commit env))
      /\ String.length (String.substring 0 8 (Commit env)) = 8%nat).
Proof.
  assert (Hlen0 : Commit env = "" <-> String.length (Commit env) = 0%nat).
  { destruct (Commit env); cbn; split; intros E; try reflexivity; discriminate E. }
  assert (Hv : archiveVersion VERSION env = None
               <-> (0 < String.length (Commit env) < 8)%nat).
  { unfold archiveVersion.
    destruct (bool_decide_reflect (Commit env = "")) as [He | He]; cbn [negb].
    - apply Hlen0 in He. split; [intros E; discriminate E | lia].
    - assert (String.length (Commit env) <> 0%nat) by (intros E; by apply He, Hlen0).
      destruct (bool_decide_reflect (8 <= String.length (Commit env))%nat);
        split; try (intros E; discriminate E); try reflexivity; lia. }
  assert (Hu : (if isUnstableBuild env then VERSION +:+ "-unstable" else VERSION)
               = (if bool_decide (Tag env = "") then VERSION +:+ "-unstable" else VERSION)).
  { unfold isUnstableBuild. by destruct (bool_decide (Tag env = "")). }
  split; [exact Hv | split; [| split]].
  - intros GOOS osenv arch. rewrite <- Hv. unfold archiveBasename.
    destruct (archiveVersion VERSION env); split; intros E;
      try reflexivity; discriminate E.
  - intros He. unfold archiveVersion. rewrite He, Hu. reflexivity.
  - intros Hl. split.
    + unfold archiveVersion. rewrite Hu.
      rewrite bool_decide_eq_false_2 by (intros E; apply Hlen0 in E; lia).
      cbn [negb]. rewrite bool_decide_eq_true_2 by exact Hl. reflexivity.
    + rewrite substring0_length. lia.
Qed.

(** X16: unstable and stable Debian packages: an unstable package of an
    executable declares a conflict with the stable metapackage and with the
    stable package of the same executable, and carries another name than
    either; a stable package declares no conflict. *)
Theorem deb_unstable_conflicts_with_stable (unstable stable : debMetadata)
    (exe : debExecutable) :
  Tag (Env unstable) = "" -> Tag (Env stable) <> "" ->
  debMetadata_ExeConflicts unstable exe
  = debMetadata_Name stable +:+ ", " +:+ debMetadata_ExeName stable exe
  /\ debMetadata_ExeName unstable exe <> debMetadata_ExeName stable exe
  /\ debMetadata_Name unstable <> debMetadata_Name stable
  /\ debMetadata_ExeConflicts stable exe = "".
Proof.
  intros Hu Hs.
  assert (Eu : isUnstableBuild (Env unstable) = true) by by apply isUnstableBuild_iff.
  assert (Es : isUnstableBuild (Env stable) = false).
  { destruct (isUnstableBuild (Env stable)) eqn:E; [| reflexivity].
    apply isUnstableBuild_iff in E. contradiction. }
  unfold debMetadata_ExeConflicts, debMetadata_Name, debMetadata_ExeName.
  rewrite Eu, Es. repeat split.
  - intros E. apply str_append_cancel in E. discriminate E.
  - intros E. discriminate E.
Qed.

(** X17: the command line that [buildFlags] produces: the optional flags come in
    the order -installsuffix musl, -race, -v; -tags is always passed and its
    value starts with netgo osusergo; -ldflags comes last and always holds
    -s -w, after the commit when there is one; -gcflags is never passed;
    and the only change to the process environment is CC, set for musl. *)
Theorem buildFlags_command_line (env : Environment) (osenv : gmap string string) :
  let static := configFlag env "static" in
  let ld := (if bool_decide (Commit env = "") then ""
             else "-X main.gitCommit=" +:+ Commit env +:+ " ")
            +:+ "-s -w"
            +:+ (if static then " -linkmode external -extldflags -static" else "") in
  let tags := "netgo osusergo" +:+ (if static then " static" else "")
              +:+ (if configFlag env "usb" then " usb" else "") in
  ((buildFlags env osenv).1
   = (if configFlag env "musl" then ["-installsuffix"; "musl"] else [])
     ++ (if configFlag env "race" then ["-race"] else [])
     ++ (if configFlag env "v" then ["-v"] else [])
     ++ ["-tags"; tags; "-ldflags"; ld])
  /\ ("-gcflags" ∉ (buildFlags env osenv).1)
  /\ ((buildFlags env osenv).2
      = (if configFlag env "musl" then <["CC" := "musl-gcc"]> osenv else osenv)).
Proof.
  intros static ld tags.
  assert (Hflags : (buildFlags env osenv).1
    = (if configFlag env "musl" then ["-installsuffix"; "musl"] else [])
      ++ (if configFlag env "race" then ["-race"] else [])
      ++ (if configFlag env "v" then ["-v"] else [])
      ++ ["-tags"; tags; "-ldflags"; ld]).
  { unfold buildFlags. subst static ld tags.
    destruct (bool_decide (Commit env = "")); cbn [negb];
      destruct (configFlag env "musl"), (configFlag env "static"),
               (configFlag env "usb"), (configFlag env "race"), (configFlag env "v");
      cbn; rewrite ?str_append_assoc; reflexivity. }
  split; [exact Hflags | split].
  - rewrite Hflags. subst static ld tags.
    destruct (bool_decide (Commit env = ""));
      destruct (configFlag env "musl"), (configFlag env "static"),
               (configFlag env "usb"), (configFlag env "race"), (configFlag env "v");
      cbn; intros Hin;
      repeat (apply elem_of_cons in Hin as [E | Hin]; [discriminate E |]);
      by apply elem_of_nil in Hin.
  - unfold buildFlags. destruct (configFlag env "musl"), (configFlag env "static");
      reflexivity.
Qed.

(** X18: which builds are archived: no pull request, no cron job, and either the
    master branch or a tag that starts with v1.; so an unstable build, one
    without a tag, is archived from master only. *)
Theorem archived_builds (env : Environment) :
  (maybeSkipArchive env = false
   <-> IsPullRequest env = false /\ IsCronJob env = false
       /\ (Branch env = "master" \/ strings_HasPrefix (Tag env) "v1." = true))
  /\ (maybeSkipArchive env = false -> isUnstableBuild env = true -> Branch env = "master").
Proof.
  assert (Hiff : maybeSkipArchive env = false
                 <-> IsPullRequest env = false /\ IsCronJob env = false
                     /\ (Branch env = "master" \/ strings_HasPrefix (Tag env) "v1." = true)).
  { unfold maybeSkipArchive.
    destruct (IsPullRequest env); [split; [intros E; discriminate E | intros [E _]; discriminate E] |].
    destruct (IsCronJob env); [split; [intros E; discriminate E | intros (_ & E & _); discriminate E] |].
    destruct (bool_decide_reflect (Branch env = "master")) as [Hb | Hb]; cbn [negb andb].
    - split; [intros _; auto | reflexivity].
    - destruct (strings_HasPrefix (Tag env) "v1."); cbn [negb].
      + split; [intros _; auto | reflexivity].
      + split; [intros E; discriminate E | intros (_ & _ & [E | E]); [contradiction | discriminate E]]. }
  split; [exact Hiff |].
  intros Hskip Hun. apply Hiff in Hskip as (_ & _ & [Hb | Ht]); [exact Hb |].
  apply isUnstableBuild_iff in Hun. rewrite Hun in Ht. discriminate Ht.
Qed.

(** * The further properties on concrete inputs, over [GoASCII] *)

Lemma ToLower_idempotent (s : string) :
  GoModel.ToLower (GoModel.ToLower s) = GoModel.ToLower s.
Proof.
  induction s as [| a s IH]; [reflexivity |].
  cbn [GoModel.ToLower]. f_equal; [| exact IH].
  destruct a as [[] [] [] [] [] [] [] []]; vm_compute; reflexivity.
Qed.

(** A request to the IPv6 loopback address passes an empty whitelist. *)
Lemma vhost_gate_bypass_witness :
  let r := mkRequest "POST" "[::1]:8545" "10.0.0.9:51000" 2
                     [("Content-Type", "application/json")] "{}" in
  ServeHTTP (newVHostHandler [] (ServerHandler echoServer)) r freshConn
  = Server_ServeHTTP echoServer r freshConn.
Proof.
  intros r.
  apply (vhost_gate_bypass [] (ServerHandler echoServer) r freshConn).
  right. compute_done.
Defined.

Lemma vhost_gate_wildcard_witness :
  let r := mkRequest "POST" "Any.Host.example" "10.0.0.9:51000" 2
                     [("Content-Type", "application/json")] "{}" in
  ServeHTTP (newVHostHandler ["localhost"; "*"] (ServerHandler echoServer)) r freshConn
  = Server_ServeHTTP echoServer r freshConn.
Proof.
  intros r.
  apply (vhost_gate_wildcard ["localhost"; "*"] (ServerHandler echoServer) r freshConn).
  - reflexivity.
  - compute_done.
Defined.

Lemma vhost_gate_unlisted_witness :
  let r := mkRequest "POST" "evil.example:8545" "10.0.0.9:51000" 2
                     [("Content-Type", "application/json")] "{}" in
  rw_status (conn_w (ServeHTTP (newVHostHandler ["localhost"] (ServerHandler echoServer))
                       r freshConn)) = Some 403
  /\ served (ServeHTTP (newVHostHandler ["localhost"] (ServerHandler echoServer))
               r freshConn) = [].
Proof.
  intros r.
  destruct (vhost_gate_unlisted_forbidden ["localhost"] (ServerHandler echoServer)
              r freshConn) as (_ & Hs & Hst);
    [compute_done | reflexivity | compute_done | compute_done |].
  split; [exact (Hst eq_refl) | exact Hs].
Defined.

(** The entry reads LocalHost, the request says localhost. *)
Lemma vhost_gate_listed_witness :
  let r := mkRequest "POST" "localhost:8545" "10.0.0.9:51000" 2
                     [("Content-Type", "application/json")] "{}" in
  ServeHTTP (newVHostHandler ["LocalHost"] (ServerHandler echoServer)) r freshConn
  = Server_ServeHTTP echoServer r freshConn.
Proof.
  intros r.
  apply (vhost_gate_listed_delegates ["LocalHost"] (ServerHandler echoServer)
           "LocalHost" r freshConn).
  - compute_done.
  - reflexivity.
Defined.

(** The entry reads LocalHost, and so does the request. *)
Lemma vhost_gate_mixed_case_witness :
  let r := mkRequest "POST" "LocalHost:8545" "10.0.0.9:51000" 2
                     [("Content-Type", "application/json")] "{}" in
  ServeHTTP (newVHostHandler ["LocalHost"] (ServerHandler echoServer)) r freshConn
  = forbidden "invalid host specified" freshConn.
Proof.
  intros r.
  apply (vhost_gate_mixed_case_never_listed ["LocalHost"] (ServerHandler echoServer)
           r freshConn).
  - exact ToLower_idempotent.
  - compute_done.
  - reflexivity.
  - compute_done.
  - compute_done.
Defined.

(** Private, loopback and private again: the peer address is used. *)
Lemma getIP_no_public_entry_witness :
  getIP (proxied "192.168.1.4, 127.0.0.1, 172.16.0.1" "172.16.0.1:40000") true
  = net_ParseIP "172.16.0.1".
Proof.
  refine (getIP_no_public_entry
            (proxied "192.168.1.4, 127.0.0.1, 172.16.0.1" "172.16.0.1:40000") _).
  intros h e Hh He.
  apply elem_of_cons in Hh as [-> | Hh];
    [| apply elem_of_cons in Hh as [-> | Hh]; [| by apply elem_of_nil in Hh]];
    vm_compute in He;
    repeat (apply elem_of_cons in He as [-> | He]; [vm_compute; reflexivity |]);
    by apply elem_of_nil in He.
Defined.


(** A POST of unknown length (-1): its three bytes reach the dispatcher. *)
Lemma dispatched_body_witness :
  let r := mkRequest "POST" "node.example" "10.0.0.9:51000" (-1)
                     [("Content-Type", "application/json")] "[1]" in
  exists body,
    Server_ServeHTTP echoServer r freshConn
    = {| conn_w := ServeSingleRequest echoServer body
                     (setHeader "content-type" "application/json" (conn_w freshConn));
         served := served freshConn ++ [body] |}
    /\ Z.of_nat (String.length body) <= 131072
    /\ String.prefix body (Body r) = true
    /\ (Z.of_nat (String.length (Body r)) <= 131072 -> body = Body r).
Proof.
  intros r. apply (dispatched_body_capped echoServer r freshConn).
  - intros [E _]. discriminate E.
  - reflexivity.
Defined.

(** The probe is let in by 10.0.0.0/8 and stopped at the host gate. *)
Lemma composed_host_rejected_witness :
  exists h,
    NewHTTPServer ["https://wallet.example"] ["localhost"] ["10.0.0.0/8"] false echoServer
    = Some h
    /\ ServeHTTP h probe freshConn = forbidden "invalid host specified" freshConn
    /\ served (ServeHTTP h probe freshConn) = served freshConn.
Proof.
  eapply (composed_host_rejected_before_base ["https://wallet.example"] ["localhost"]
            ["10.0.0.0/8"] false echoServer _ probe freshConn).
  - vm_compute. reflexivity.
  - vm_compute. reflexivity.
  - compute_done.
  - vm_compute. reflexivity.
  - compute_done.
  - compute_done.
Defined.

Lemma composed_passes_witness :
  let r := mkRequest "POST" "localhost:8545" "10.0.0.9:51000" 2
                     [("Content-Type", "application/json")] "{}" in
  exists h,
    NewHTTPServer [] ["localhost"] ["10.0.0.0/8"] false echoServer = Some h
    /\ ServeHTTP h r freshConn = Server_ServeHTTP echoServer r freshConn.
Proof.
  intros r.
  eapply (composed_passes_to_base ["localhost"] ["10.0.0.0/8"] false echoServer _
            r freshConn).
  - vm_compute. reflexivity.
  - vm_compute. reflexivity.
  - right. right. right. compute_done.
Defined.

(** A nightly build and the release v1.7.13 of the same executable. *)
Lemma deb_unstable_witness :
  let meta (tag : string) :=
    {| Env := mkEnv "0123456789abcdef" tag "master" []; Version := "1.7.13";
       Author := "AquaChain Builds <none@example.org>"; Distro := "stretch";
       Time := ""; Executables := [] |} in
  let exe := {| Name := "aqua-vm"; Description := "" |} in
  debMetadata_ExeConflicts (meta "") exe = "aquachain, aqua-vm"
  /\ debMetadata_ExeName (meta "") exe <> debMetadata_ExeName (meta "v1.7.13") exe
  /\ debMetadata_Name (meta "") <> debMetadata_Name (meta "v1.7.13")
  /\ debMetadata_ExeConflicts (meta "v1.7.13") exe = "".
Proof.
  intros meta exe.
  apply (deb_unstable_conflicts_with_stable (meta "") (meta "v1.7.13") exe).
  - reflexivity.
  - compute_done.
Defined.

(** * Two more properties of the gates' inputs *)

Section Inputs.
Context {go : GoLib}.




(** X20: the whitelist is a set: lists that hold the same entries up to letter
    case, order and repetition build the same gate. *)
Theorem newVHostHandler_set (vhosts1 vhosts2 : list string) (next : Handler) :
  (forall x, x ∈ strings_ToLower <$> vhosts1 <-> x ∈ strings_ToLower <$> vhosts2) ->
  newVHostHandler vhosts1 next = newVHostHandler vhosts2 next.
Proof.
  intros Hsame. unfold newVHostHandler. f_equal.
  apply set_eq. intros x.
  rewrite !vhostMap_elem_of, !elem_of_empty, Hsame. tauto.
Qed.

End Inputs.


Lemma newVHostHandler_set_witness :
  newVHostHandler ["Node.example"; "localhost"; "NODE.EXAMPLE"] (ServerHandler echoServer)
  = newVHostHandler ["LOCALHOST"; "node.example"] (ServerHandler echoServer).
Proof.
  apply (newVHostHandler_set ["Node.example"; "localhost"; "NODE.EXAMPLE"]
           ["LOCALHOST"; "node.example"] (ServerHandler echoServer)).
  intros x.
  change (x ∈ ["node.example"; "localhost"; "node.example"]
          <-> x ∈ ["localhost"; "node.example"]).
  rewrite !elem_of_cons, !elem_of_nil. tauto.
Defined.
